(** * monitoring-stack: the three Express services over MongoDB

    A shallow embedding of the request handlers of the user service
    (index.js of user-service), the product service and the order service,
    with their in-process caches, the collections they read and write and
    the counters they increment.

    Conventions of the embedding.
    - A handler is a function from the state it can touch (collections,
      cache, counters) and the request to the new state and the response.
      An exception thrown inside a handler's [try] is the 500 response of
      its [catch].
    - A JavaScript value that may be [undefined] is an [option]; a request
      field of the wrong JSON type is outside the model, except where a
      handler tests the type itself.
    - Numbers are integers ([Z]), standing for the integers a JavaScript
      number holds exactly; prices are counted in the smallest currency
      unit.  The timers of the duration histograms are left out, and so
      are the dates of users and products; orders carry [createdAt] and
      [updatedAt], on which the answer of the status handler depends.
    - [new Map()] is a [gmap] with string keys. *)

From Stdlib Require Import ZArith QArith.
From stdpp Require Import gmap strings list pretty.

Local Open Scope Z_scope.

(** ** The JavaScript [Map] used as a cache

    [const cache = new Map();] in the user service and the product service.
    [Map.prototype.set] has two parameters: the third argument the callers
    pass (the intended time to live, in milliseconds) is evaluated and
    dropped, and [Map.prototype.get] never looks at a clock. *)
Module JsMap.
Section Ops.
Context {V : Type}.

Definition get (m : gmap string V) (key : string) : option V := m !! key.

Definition set (m : gmap string V) (key : string) (value : V) (ttl : Z)
  : gmap string V := <[key := value]> m.

Definition clear (m : gmap string V) : gmap string V := ∅.

(** The cache of a running process: the map and the wall clock
    ([Date.now()], milliseconds) of the moment. *)
Record timed := Timed { now : Z; store : gmap string V }.

Definition set_at (c : timed) (key : string) (value : V) (ttl : Z) : timed :=
  Timed (now c) (set (store c) key value ttl).

Definition get_at (c : timed) (key : string) : option V :=
  get (store c) key.

(** [d] milliseconds go by; nothing in the process sweeps the map. *)
Definition elapse (d : Z) (c : timed) : timed :=
  Timed (now c + d) (store c).
End Ops.
Arguments timed : clear implicits.

Section Facts.
Context {V : Type}.
Implicit Types (m : gmap string V) (c : timed V).

Lemma get_set_same m key value ttl :
  get (set m key value ttl) key = Some value.
Proof. unfold get, set. apply lookup_insert_eq. Qed.

Lemma get_set_other m key key' value ttl :
  key ≠ key' → get (set m key value ttl) key' = get m key'.
Proof. intros Hne. unfold get, set. by rewrite lookup_insert_ne. Qed.

Lemma get_clear m key : get (clear m) key = None.
Proof. unfold get, clear. apply lookup_empty. Qed.

Lemma set_ttl_irrelevant m key value ttl ttl' :
  set m key value ttl = set m key value ttl'.
Proof. reflexivity. Qed.

Lemma get_at_elapse c d key : get_at (elapse d c) key = get_at c key.
Proof. reflexivity. Qed.

(** A read that follows the write returns the value. *)
Lemma get_at_after_set c key value ttl :
  get_at (set_at c key value ttl) key = Some value.
Proof. unfold get_at, set_at; simpl. apply get_set_same. Qed.

(** C3: the entry is returned however much time has gone by since it was
    written, also when more than [ttl] milliseconds have: the read is a
    hit where the claim asks for a miss. *)
Theorem get_ignores_ttl c key value ttl d :
  get_at (elapse d (set_at c key value ttl)) key = Some value.
Proof. rewrite get_at_elapse. apply get_at_after_set. Qed.
End Facts.

(** The spec's own test: [set(k, v, 100)], and 150 ms later [get(k)]. *)
Example get_after_150ms :
  get_at (elapse 150 (set_at (Timed 0 ∅) "k" "v" 100)) "k" = Some "v".
Proof. reflexivity. Qed.
End JsMap.

(** The message of the [BSONError] that [new ObjectId(id)] throws on a
    string that is no object id; the handlers' [catch] sends it back as the
    [error] of a 500.  Its wording is the driver's. *)
Definition BSONError_message : string :=
  "input must be a 24 character hex string, 12 byte Uint8Array, or an integer".

(** ** The user service (index.js of user-service) *)
Module UserService.

(** A document of the [users] collection.  A field that a document does
    not have is [None]: the seed script inserts users without [password],
    and the projection [{ password: 0 }] removes the field. *)
Record User := mkUser {
  _id : nat;
  name : option string;
  email : option string;
  password : option string;
  status : option string
}.

#[export] Instance User_eq_dec : EqDecision User.
Proof. solve_decision. Defined.

(** The counters of utils/customMetrics.js that the handlers increment. *)
Record Metrics := mkMetrics {
  userRegistrationsTotal : nat;
  userLoginsTotal : nat;
  userLoginsFailedTotal : nat;
  cacheHitsTotal : nat;
  cacheMissesTotal : nat
}.

(** What a handler can touch: the [users] collection in insertion order,
    the next [ObjectId] the driver hands out, the cache and the counters.
    Only the entries under the keys [user:...] are kept in [cache]: the
    list endpoint writes under [users:page:...] and [users:total], which no
    key of this shape equals. *)
Record State := mkState {
  users : list User;
  nextId : nat;
  cache : gmap string User;
  metrics : Metrics
}.

Inductive Body :=
| Error (error : string)
| Registered (message : string) (userId : nat)
| LoggedIn (token : string) (id : nat) (uname uemail : option string)
| UserData (data : User).

Record Response := mkResponse { statusCode : nat; body : Body }.

Record Credentials := mkCredentials {
  req_name : option string;
  req_email : option string;
  req_password : option string
}.

(** [`user:${x}`]: an undefined [x] prints as [undefined]. *)
Definition cacheKey (x : option string) : string :=
  "user:" +:+ default "undefined" x.

(** [db.collection('users').findOne({ email })]: the first document whose
    field equals the value; an undefined value is sent as [null], which
    matches the documents without the field. *)
Definition findOne_email (us : list User) (e : option string) : option User :=
  List.find (fun u => bool_decide (email u = e)) us.

(** [findOne({ _id })] *)
Definition findOne_id (us : list User) (i : nat) : option User :=
  List.find (fun u => bool_decide (_id u = i)) us.

(** The projection [{ password: 0 }]. *)
Definition project_password (u : User) : User :=
  mkUser (_id u) (name u) (email u) None (status u).

Definition inc_registrations (m : Metrics) : Metrics :=
  mkMetrics (S (userRegistrationsTotal m)) (userLoginsTotal m)
    (userLoginsFailedTotal m) (cacheHitsTotal m) (cacheMissesTotal m).
Definition inc_logins (m : Metrics) : Metrics :=
  mkMetrics (userRegistrationsTotal m) (S (userLoginsTotal m))
    (userLoginsFailedTotal m) (cacheHitsTotal m) (cacheMissesTotal m).
Definition inc_loginsFailed (m : Metrics) : Metrics :=
  mkMetrics (userRegistrationsTotal m) (userLoginsTotal m)
    (S (userLoginsFailedTotal m)) (cacheHitsTotal m) (cacheMissesTotal m).
Definition inc_cacheHits (m : Metrics) : Metrics :=
  mkMetrics (userRegistrationsTotal m) (userLoginsTotal m)
    (userLoginsFailedTotal m) (S (cacheHitsTotal m)) (cacheMissesTotal m).
Definition inc_cacheMisses (m : Metrics) : Metrics :=
  mkMetrics (userRegistrationsTotal m) (userLoginsTotal m)
    (userLoginsFailedTotal m) (cacheHitsTotal m) (S (cacheMissesTotal m)).

Definition with_metrics (f : Metrics → Metrics) (st : State) : State :=
  mkState (users st) (nextId st) (cache st) (f (metrics st)).
Definition with_cache (c : gmap string User) (st : State) : State :=
  mkState (users st) (nextId st) c (metrics st).

Section Handlers.
(** The libraries the handlers call.  [bcrypt.hash(password, 10)] and
    [bcrypt.compare(password, hash)] on strings (both reject an undefined
    argument, which the handlers' [catch] turns into a 500);
    [jwt.sign({ userId, email }, secret, { expiresIn: '24h' })];
    [new ObjectId(id)], which throws on a string that is no object id. *)
Variable bcrypt_hash : string → string.
Variable bcrypt_compare : string → string → bool.
Variable jwt_sign : nat → option string → string.
Variable ObjectId : string → option nat.

(** [app.post('/api/users/register', ...)] *)
Definition post_users_register (st : State) (rq : Credentials)
  : State * Response :=
  match findOne_email (users st) (req_email rq) with
  | Some existingUser => (st, mkResponse 400 (Error "User already exists"))
  | None =>
    match req_password rq with
    | None => (st, mkResponse 500 (Error "data and salt arguments required"))
    | Some pw =>
      let doc := mkUser (nextId st) (req_name rq) (req_email rq)
                   (Some (bcrypt_hash pw)) (Some "active") in
      (mkState (users st ++ [doc]) (S (nextId st)) (cache st)
         (inc_registrations (metrics st)),
       mkResponse 201 (Registered "User registered successfully" (nextId st)))
    end
  end.

(** The first half of the login handler: the cache lookup, and on a miss
    the database lookup with the write of what it found into the cache
    ([cache.set(cacheKey, user, 300000)]). *)
Definition login_lookup (st : State) (e : option string)
  : State * option User :=
  match JsMap.get (cache st) (cacheKey e) with
  | Some user => (with_metrics inc_cacheHits st, Some user)
  | None =>
    let st1 := with_metrics inc_cacheMisses st in
    match findOne_email (users st1) e with
    | Some user =>
      (with_cache (JsMap.set (cache st1) (cacheKey e) user 300000) st1,
       Some user)
    | None => (st1, None)
    end
  end.

(** [app.post('/api/users/login', ...)] *)
Definition post_users_login (st : State) (rq : Credentials)
  : State * Response :=
  let '(st1, found) := login_lookup st (req_email rq) in
  match found with
  | None =>
    (with_metrics inc_loginsFailed st1,
     mkResponse 401 (Error "Invalid credentials"))
  | Some user =>
    match req_password rq, password user with
    | Some pw, Some hash =>
      if bcrypt_compare pw hash then
        (with_metrics inc_logins st1,
         mkResponse 200
           (LoggedIn (jwt_sign (_id user) (email user))
              (_id user) (name user) (email user)))
      else
        (with_metrics inc_loginsFailed st1,
         mkResponse 401 (Error "Invalid credentials"))
    | _, _ => (st1, mkResponse 500 (Error "data and hash arguments required"))
    end
  end.

(** [app.get('/api/users/:id', ...)] *)
Definition get_users_id (st : State) (id : string) : State * Response :=
  match JsMap.get (cache st) (cacheKey (Some id)) with
  | Some user =>
    (with_metrics inc_cacheHits st, mkResponse 200 (UserData user))
  | None =>
    let st1 := with_metrics inc_cacheMisses st in
    match ObjectId id with
    | None => (st1, mkResponse 500 (Error BSONError_message))
    | Some oid =>
      match option_map project_password (findOne_id (users st1) oid) with
      | Some user =>
        (with_cache (JsMap.set (cache st1) (cacheKey (Some id)) user 120000) st1,
         mkResponse 200 (UserData user))
      | None => (st1, mkResponse 404 (Error "User not found"))
      end
    end
  end.

(** *** Registration *)

Lemma findOne_email_Some us e :
  (∃ u, u ∈ us ∧ email u = e) → is_Some (findOne_email us e).
Proof.
  intros (u & Hin & He). unfold findOne_email.
  destruct (List.find _ us) as [w|] eqn:Hfind; [by eexists|].
  apply list_elem_of_In in Hin.
  pose proof (List.find_none _ _ Hfind u Hin) as Hno; simpl in Hno.
  by rewrite bool_decide_eq_false in Hno.
Qed.

Lemma findOne_email_None us e :
  (∀ u, u ∈ us → email u ≠ e) → findOne_email us e = None.
Proof.
  intros Hfresh. unfold findOne_email.
  destruct (List.find _ us) as [w|] eqn:Hfind; [|done].
  apply List.find_some in Hfind as [Hin Hw].
  apply bool_decide_eq_true in Hw. apply list_elem_of_In in Hin.
  by destruct (Hfresh w Hin).
Qed.

Lemma findOne_email_found us e u :
  findOne_email us e = Some u → u ∈ us ∧ email u = e.
Proof.
  unfold findOne_email. intros Hfind.
  apply List.find_some in Hfind as [Hin Hu].
  apply bool_decide_eq_true in Hu. by rewrite list_elem_of_In.
Qed.

(** C7: a registration whose email is the email of a stored user is
    answered 400 [User already exists] and changes nothing (no document is
    inserted, the whole state is the one before); a registration whose
    email no stored user has (and that carries a password to hash) is
    answered 201 and appends exactly one document with that email to the
    collection. *)
Theorem register_email_unique (st : State) (rq : Credentials) :
  ((∃ u, u ∈ users st ∧ email u = req_email rq) →
     post_users_register st rq
     = (st, mkResponse 400 (Error "User already exists")))
  ∧ ((∀ u, u ∈ users st → email u ≠ req_email rq) →
     ∀ pw, req_password rq = Some pw →
     ∃ st',
       post_users_register st rq
       = (st', mkResponse 201
                 (Registered "User registered successfully" (nextId st)))
       ∧ users st'
         = users st ++ [mkUser (nextId st) (req_name rq) (req_email rq)
                          (Some (bcrypt_hash pw)) (Some "active")]
       ∧ length (users st') = S (length (users st))).
Proof.
  split.
  - intros Hdup. apply findOne_email_Some in Hdup as [w Hw].
    unfold post_users_register. by rewrite Hw.
  - intros Hfresh pw Hpw. apply findOne_email_None in Hfresh.
    unfold post_users_register. rewrite Hfresh, Hpw.
    eexists; split; [reflexivity|]. simpl. split; [done|].
    rewrite length_app; simpl. lia.
Qed.

(** *** Login and the cache *)

Lemma login_lookup_miss st e u :
  cache st !! cacheKey e = None →
  findOne_email (users st) e = Some u →
  login_lookup st e
  = (with_cache (<[cacheKey e := u]> (cache st))
       (with_metrics inc_cacheMisses st), Some u).
Proof.
  intros Hmiss Hdb. unfold login_lookup, JsMap.get. rewrite Hmiss.
  simpl. by rewrite Hdb.
Qed.

Lemma login_lookup_hit st e u :
  cache st !! cacheKey e = Some u →
  login_lookup st e = (with_metrics inc_cacheHits st, Some u).
Proof. intros Hhit. unfold login_lookup, JsMap.get. by rewrite Hhit. Qed.

(** No path of the login handler writes the cache once the key is in it. *)
Lemma login_hit_cache_unchanged st rq :
  is_Some (cache st !! cacheKey (req_email rq)) →
  cache (post_users_login st rq).1 = cache st.
Proof.
  intros [u Hu]. unfold post_users_login.
  rewrite (login_lookup_hit _ _ _ Hu).
  destruct (req_password rq), (password u); try done.
  by destruct (bcrypt_compare _ _).
Qed.

(** C10, as the code has it: when the key [user:<email>] is not in the
    cache, a login whose email is that of a stored user and whose password
    does not match the stored hash is answered 401 [Invalid credentials]
    after the full stored document, hash included, has been written to the
    cache under that key; the cache is not the one before, a later login
    for the email is served from it, and so is a read of [/api/users/:id]
    whose id is the email.  When the key is in the cache already, the
    handler writes nothing to the cache. *)
Theorem login_wrong_password_populates_cache
    (st : State) (rq : Credentials) (u : User) (pw hash : string) :
  findOne_email (users st) (req_email rq) = Some u →
  password u = Some hash →
  req_password rq = Some pw →
  bcrypt_compare pw hash = false →
  (cache st !! cacheKey (req_email rq) = None →
   ∃ st',
     post_users_login st rq
     = (st', mkResponse 401 (Error "Invalid credentials"))
     ∧ cache st' = <[cacheKey (req_email rq) := u]> (cache st)
     ∧ cache st' ≠ cache st
     ∧ JsMap.get (cache st') (cacheKey (req_email rq)) = Some u
     ∧ (login_lookup st' (req_email rq)).2 = Some u
     ∧ (∀ e, req_email rq = Some e →
          (get_users_id st' e).2 = mkResponse 200 (UserData u)))
  ∧ (is_Some (cache st !! cacheKey (req_email rq)) →
     cache (post_users_login st rq).1 = cache st).
Proof.
  intros Hdb Hhash Hpw Hcmp. split; [|apply login_hit_cache_unchanged].
  intros Hmiss. unfold post_users_login.
  rewrite (login_lookup_miss _ _ _ Hmiss Hdb), Hpw, Hhash, Hcmp.
  eexists; split; [reflexivity|]. simpl.
  assert (Hget : <[cacheKey (req_email rq) := u]> (cache st)
                   !! cacheKey (req_email rq) = Some u)
    by apply lookup_insert_eq.
  repeat split.
  - intros Heq. rewrite Heq in Hget. congruence.
  - exact Hget.
  - unfold login_lookup, JsMap.get; simpl. by rewrite Hget.
  - intros e He. unfold get_users_id, JsMap.get; simpl.
    rewrite <- He. by rewrite Hget.
Qed.

(** *** Reading a user by id *)

(** On the miss path the document that is returned and cached went through
    the projection: it has no [password]. *)
Lemma get_users_id_miss_no_password st id u :
  cache st !! cacheKey (Some id) = None →
  (get_users_id st id).2 = mkResponse 200 (UserData u) →
  password u = None.
Proof.
  intros Hmiss. unfold get_users_id, JsMap.get. rewrite Hmiss.
  destruct (ObjectId id) as [oid|]; [|discriminate].
  destruct (findOne_id _ oid) as [w|]; simpl; [|discriminate].
  intros [= <-]. reflexivity.
Qed.

(** The hit path returns whatever the key holds, unprojected; after a
    login for the email [e] the key [user:e] holds the stored document. *)
Lemma get_users_id_after_login st rq e u :
  req_email rq = Some e →
  cache st !! cacheKey (Some e) = None →
  findOne_email (users st) (Some e) = Some u →
  (get_users_id (post_users_login st rq).1 e).2
  = mkResponse 200 (UserData u).
Proof.
  intros He Hmiss Hdb. unfold post_users_login. rewrite He.
  rewrite (login_lookup_miss _ _ _ Hmiss Hdb).
  assert (Hget : <[cacheKey (Some e) := u]> (cache st)
                   !! cacheKey (Some e) = Some u)
    by apply lookup_insert_eq.
  destruct (req_password rq), (password u);
    try destruct (bcrypt_compare _ _);
    unfold get_users_id, JsMap.get; simpl; by rewrite Hget.
Qed.

End Handlers.

(** *** A concrete process

    Stand-ins for the libraries, and a collection with one registered
    user, to run the handlers on. *)
Definition sample_hash (pw : string) : string := "$2b$10$" +:+ pw.
Definition sample_compare (pw hash : string) : bool :=
  bool_decide (sample_hash pw = hash).
Definition sample_sign (userId : nat) (e : option string) : string :=
  "jwt." +:+ pretty userId.
Definition sample_ObjectId (s : string) : option nat :=
  if bool_decide (s = "651234567890123456789001") then Some 1%nat else None.

Definition alice : User :=
  mkUser 1 (Some "Alice") (Some "alice@example.com")
    (Some (sample_hash "secret")) (Some "active").

Definition no_metrics : Metrics := mkMetrics 0 0 0 0 0.

(** Alice is registered, nobody has logged in. *)
Definition fresh_process : State := mkState [alice] 2 ∅ no_metrics.

(** Alice is registered and a login for her email has been served. *)
Definition after_a_login : State :=
  mkState [alice] 2 {[ "user:alice@example.com" := alice ]}
    (mkMetrics 0 1 0 0 1).

Definition login_as_alice (pw : string) : Credentials :=
  mkCredentials None (Some "alice@example.com") (Some pw).

Example login_reaches_after_a_login :
  (post_users_login sample_compare sample_sign fresh_process
     (login_as_alice "secret")).1 = after_a_login.
Proof. reflexivity. Qed.

Lemma register_email_unique_witness :
  post_users_register sample_hash fresh_process
    (mkCredentials (Some "Eve") (Some "alice@example.com") (Some "pw"))
  = (fresh_process, mkResponse 400 (Error "User already exists"))
  ∧ ∃ st',
      post_users_register sample_hash fresh_process
        (mkCredentials (Some "Bob") (Some "bob@example.com") (Some "pw"))
      = (st', mkResponse 201 (Registered "User registered successfully" 2))
      ∧ users st'
        = [alice; mkUser 2 (Some "Bob") (Some "bob@example.com")
                    (Some (sample_hash "pw")) (Some "active")]
      ∧ length (users st') = 2%nat.
Proof.
  split.
  - apply (proj1 (register_email_unique sample_hash fresh_process
                    (mkCredentials (Some "Eve") (Some "alice@example.com")
                       (Some "pw")))).
    exists alice. split; [apply list_elem_of_here | reflexivity].
  - apply (proj2 (register_email_unique sample_hash fresh_process
                    (mkCredentials (Some "Bob") (Some "bob@example.com")
                       (Some "pw")))).
    + intros u Hu. apply list_elem_of_singleton in Hu. subst u.
      simpl. discriminate.
    + reflexivity.
Defined.

Lemma login_wrong_password_populates_cache_witness :
  (∃ st',
     post_users_login sample_compare sample_sign fresh_process
       (login_as_alice "guess")
     = (st', mkResponse 401 (Error "Invalid credentials"))
     ∧ cache st' = <[ "user:alice@example.com" := alice ]> ∅
     ∧ cache st' ≠ ∅
     ∧ JsMap.get (cache st') "user:alice@example.com" = Some alice
     ∧ (login_lookup st' (Some "alice@example.com")).2 = Some alice
     ∧ (∀ e, Some "alice@example.com" = Some e →
          (get_users_id sample_ObjectId st' e).2
          = mkResponse 200 (UserData alice)))
  ∧ cache (post_users_login sample_compare sample_sign after_a_login
             (login_as_alice "guess")).1
    = cache after_a_login.
Proof.
  split.
  - apply (proj1 (login_wrong_password_populates_cache sample_compare
                    sample_sign sample_ObjectId fresh_process
                    (login_as_alice "guess") alice "guess"
                    (sample_hash "secret")
                    eq_refl eq_refl eq_refl eq_refl)).
    reflexivity.
  - apply (proj2 (login_wrong_password_populates_cache sample_compare
                    sample_sign sample_ObjectId after_a_login
                    (login_as_alice "guess") alice "guess"
                    (sample_hash "secret")
                    eq_refl eq_refl eq_refl eq_refl)).
    exists alice. reflexivity.
Defined.

(** C10 as stated fails when the key is in the cache: after a first login
    for Alice's email, a login with a wrong password matches the stored
    user, is answered 401, and leaves the cache as it was; nothing is
    inserted. *)
Lemma login_wrong_password_cache_hit_unchanged :
  findOne_email (users after_a_login) (Some "alice@example.com") = Some alice
  ∧ password alice = Some (sample_hash "secret")
  ∧ sample_compare "guess" (sample_hash "secret") = false
  ∧ (post_users_login sample_compare sample_sign after_a_login
       (login_as_alice "guess")).2
    = mkResponse 401 (Error "Invalid credentials")
  ∧ cache (post_users_login sample_compare sample_sign after_a_login
             (login_as_alice "guess")).1
    = cache after_a_login.
Proof. repeat split. Qed.

(** C4 fails on the hit path: the login handler stores the whole document
    under [user:<email>], the key the read-by-id handler looks up for the
    id [<email>]; after Alice logs in, [GET /api/users/alice@example.com]
    is answered 200 with her document, [password] hash included. *)
Theorem get_users_id_returns_password_hash :
  (get_users_id sample_ObjectId
     (post_users_login sample_compare sample_sign fresh_process
        (login_as_alice "secret")).1
     "alice@example.com").2
  = mkResponse 200 (UserData alice)
  ∧ password alice = Some "$2b$10$secret".
Proof. split; reflexivity. Qed.

(** *** Login, registration and reading, put together *)
Section Journeys.
Variable bcrypt_hash : string → string.
Variable bcrypt_compare : string → string → bool.
Variable jwt_sign : nat → option string → string.
Variable ObjectId : string → option nat.

(** A login for an email that neither the cache nor the collection knows
    is answered 401 [Invalid credentials], with or without a password in
    the request; it counts one cache miss and one failed login and leaves
    the cache and the collection as they were.  The answer is the very
    one a wrong password for a known user gets. *)
Theorem login_unknown_email st rq :
  cache st !! cacheKey (req_email rq) = None →
  findOne_email (users st) (req_email rq) = None →
  ∃ st',
    post_users_login bcrypt_compare jwt_sign st rq
    = (st', mkResponse 401 (Error "Invalid credentials"))
    ∧ cache st' = cache st ∧ users st' = users st
    ∧ userLoginsFailedTotal (metrics st')
      = S (userLoginsFailedTotal (metrics st))
    ∧ cacheMissesTotal (metrics st') = S (cacheMissesTotal (metrics st))
    ∧ (∀ st2 rq2 u pw hash,
         (login_lookup st2 (req_email rq2)).2 = Some u →
         password u = Some hash →
         req_password rq2 = Some pw →
         bcrypt_compare pw hash = false →
         (post_users_login bcrypt_compare jwt_sign st2 rq2).2
         = (post_users_login bcrypt_compare jwt_sign st rq).2).
Proof.
  intros Hmiss Hdb.
  assert (Hlogin : post_users_login bcrypt_compare jwt_sign st rq
                   = (with_metrics inc_loginsFailed
                        (with_metrics inc_cacheMisses st),
                      mkResponse 401 (Error "Invalid credentials"))).
  { unfold post_users_login, login_lookup, JsMap.get. rewrite Hmiss.
    simpl. by rewrite Hdb. }
  rewrite Hlogin. eexists; split; [reflexivity|]. simpl.
  repeat split.
  intros st2 rq2 u pw hash Hfound Hhash Hpw Hcmp.
  unfold post_users_login.
  destruct (login_lookup st2 (req_email rq2)) as [st3 found].
  simpl in Hfound. subst found. by rewrite Hpw, Hhash, Hcmp.
Qed.

Lemma findOne_email_app_fresh us u e :
  (∀ u', u' ∈ us → email u' ≠ e) →
  findOne_email (us ++ [u]) e = findOne_email [u] e.
Proof.
  induction us as [|u0 us IH]; intros Hfresh; [done|].
  unfold findOne_email in *; simpl.
  rewrite bool_decide_eq_false_2 by (apply Hfresh; left).
  apply IH. intros u' Hu'. apply Hfresh. by right.
Qed.

(** A registration under a new email followed by a login with the same
    email and password is answered 200 with a token signed for the id the
    registration returned, given that [bcrypt.compare] accepts the
    password against its own hash and that nothing is cached under the
    email's key. *)
Theorem register_then_login st rq pw :
  (∀ u, u ∈ users st → email u ≠ req_email rq) →
  req_password rq = Some pw →
  bcrypt_compare pw (bcrypt_hash pw) = true →
  cache st !! cacheKey (req_email rq) = None →
  (post_users_register bcrypt_hash st rq).2
  = mkResponse 201 (Registered "User registered successfully" (nextId st))
  ∧ (post_users_login bcrypt_compare jwt_sign
       (post_users_register bcrypt_hash st rq).1 rq).2
    = mkResponse 200
        (LoggedIn (jwt_sign (nextId st) (req_email rq)) (nextId st)
           (req_name rq) (req_email rq)).
Proof.
  intros Hfresh Hpw Hcmp Hmiss.
  unfold post_users_register.
  rewrite (findOne_email_None _ _ Hfresh), Hpw. simpl. split; [done|].
  unfold post_users_login, login_lookup, JsMap.get; simpl.
  rewrite Hmiss. rewrite (findOne_email_app_fresh _ _ _ Hfresh).
  unfold findOne_email; simpl. rewrite bool_decide_eq_true_2 by done.
  simpl. by rewrite Hpw, Hcmp.
Qed.

(** A read by id that misses the cache and finds the user is answered
    200 with the document without its [password], and stores that
    projected document under the key; the same read again is answered the
    same from the cache, changes the cache no further, and does so
    whatever the collection holds by then. *)
Theorem get_users_id_repeat st id oid u :
  cache st !! cacheKey (Some id) = None →
  ObjectId id = Some oid →
  findOne_id (users st) oid = Some u →
  ∃ st1,
    get_users_id ObjectId st id
    = (st1, mkResponse 200 (UserData (project_password u)))
    ∧ password (project_password u) = None
    ∧ cache st1 = <[cacheKey (Some id) := project_password u]> (cache st)
    ∧ (∀ us',
         get_users_id ObjectId
           (mkState us' (nextId st1) (cache st1) (metrics st1)) id
         = (with_metrics inc_cacheHits
              (mkState us' (nextId st1) (cache st1) (metrics st1)),
            mkResponse 200 (UserData (project_password u)))).
Proof.
  intros Hmiss Hid Hfind. unfold get_users_id at 1. unfold JsMap.get.
  rewrite Hmiss, Hid. simpl. rewrite Hfind. simpl.
  eexists; split; [reflexivity|]. simpl. repeat split.
  intros us'. unfold get_users_id, JsMap.get, JsMap.set; simpl.
  by rewrite lookup_insert_eq.
Qed.

(** A login for a stored user whose document has no [password] (the
    users of the seed script have none) is answered 500, whatever the
    password sent: [bcrypt.compare] rejects the undefined hash.  The
    document has been cached by then, and the request is counted neither
    as a login nor as a failed login. *)
Theorem login_without_stored_hash st rq u pw :
  cache st !! cacheKey (req_email rq) = None →
  findOne_email (users st) (req_email rq) = Some u →
  password u = None →
  req_password rq = Some pw →
  ∃ st',
    post_users_login bcrypt_compare jwt_sign st rq
    = (st', mkResponse 500 (Error "data and hash arguments required"))
    ∧ cache st' = <[cacheKey (req_email rq) := u]> (cache st)
    ∧ userLoginsFailedTotal (metrics st') = userLoginsFailedTotal (metrics st)
    ∧ userLoginsTotal (metrics st') = userLoginsTotal (metrics st).
Proof.
  intros Hmiss Hdb Hnone Hpw. unfold post_users_login.
  rewrite (login_lookup_miss _ _ _ Hmiss Hdb), Hpw, Hnone.
  eexists; split; [reflexivity|]. done.
Qed.

End Journeys.

(** *** The list endpoint

    [app.get('/api/users', ...)] keeps its pages in the same [Map], under
    the keys [users:page:<page>:limit:<limit>], and the last count it took
    under [users:total]; they are the part of the cache that [State]
    leaves out. *)
Record ListCache := mkListCache {
  pages : gmap string (list User);
  total : option nat
}.

Record ListState := mkListState {
  l_users : list User;
  l_cache : ListCache;
  l_metrics : Metrics
}.

Record UsersPage := mkUsersPage {
  data : list User;
  pg_page : positive;
  pg_limit : positive;
  pg_total : nat;
  pg_pages : nat
}.

Definition pageKey (page limit : positive) : string :=
  "users:page:" +:+ pretty page +:+ ":limit:" +:+ pretty limit.

(** [Math.ceil(totalUsers / limit)] *)
Definition ceil_pages (totalUsers : nat) (limit : positive) : nat :=
  Z.to_nat (- ((- Z.of_nat totalUsers) `div` Z.pos limit)).

(** The handler, always answered 200 here.  [page] and [limit] are what
    [parseInt] makes of the query parameters when that is a positive
    number, and [None] when it is [NaN] or 0, which [|| 1] and [|| 10]
    replace. *)
Definition get_users (st : ListState) (page limit : option positive)
  : ListState * UsersPage :=
  let page := default 1%positive page in
  let limit := default 10%positive limit in
  let skip := ((Pos.to_nat page - 1) * Pos.to_nat limit)%nat in
  let cacheKey := pageKey page limit in
  match pages (l_cache st) !! cacheKey with
  | Some users =>
    let totalUsers := default 0%nat (total (l_cache st)) in
    (mkListState (l_users st) (l_cache st) (inc_cacheHits (l_metrics st)),
     mkUsersPage users page limit totalUsers (ceil_pages totalUsers limit))
  | None =>
    let users :=
      take (Pos.to_nat limit) (drop skip (project_password <$> l_users st)) in
    let totalUsers := length (l_users st) in
    (mkListState (l_users st)
       (mkListCache (<[cacheKey := users]> (pages (l_cache st)))
          (Some totalUsers))
       (inc_cacheMisses (l_metrics st)),
     mkUsersPage users page limit totalUsers (ceil_pages totalUsers limit))
  end.

(** No cached page holds a document with a [password]. *)
Definition pages_clean (c : ListCache) : Prop :=
  ∀ key rows, pages c !! key = Some rows →
    Forall (fun u => password u = None) rows.

(** The list never shows a password hash: starting from a cache whose
    pages hold none (the empty cache of a new process, for one), every
    row of every answer is without [password], on a hit as on a miss, and
    the cache the request leaves behind holds none either. *)
Theorem get_users_no_password st page limit :
  pages_clean (l_cache st) →
  Forall (fun u => password u = None) (data (get_users st page limit).2)
  ∧ pages_clean (l_cache (get_users st page limit).1).
Proof.
  intros Hclean. unfold get_users.
  destruct (pages (l_cache st) !! pageKey _ _) as [rows|] eqn:Hkey; simpl.
  - split; [by apply (Hclean _ _ Hkey) | done].
  - assert (Hrows : Forall (fun u => password u = None)
                      (take (Pos.to_nat (default 10%positive limit))
                         (drop ((Pos.to_nat (default 1%positive page) - 1)
                                * Pos.to_nat (default 10%positive limit))
                            (project_password <$> l_users st)))).
    { apply Forall_take, Forall_drop, Forall_fmap, Forall_forall. done. }
    split; [done|]. intros key rows; simpl.
    intros [[_ <-] | [_ Hold]]%lookup_insert_Some; [done|].
    by apply (Hclean _ _ Hold).
Qed.

(** What the process may go through between two list requests: the
    collection comes to hold other documents (a registration appends
    one), or a list request, for any page, is served. *)
Inductive ListEvent :=
| Stored (us' : list User)
| Asked (page limit : option positive).

Definition after_event (st : ListState) (e : ListEvent) : ListState :=
  match e with
  | Stored us' => mkListState us' (l_cache st) (l_metrics st)
  | Asked page limit => (get_users st page limit).1
  end.

Definition after_events (es : list ListEvent) (st : ListState) : ListState :=
  fold_left after_event es st.






(** On a miss, row [i] of the answer is the user at position
    [(page - 1) * limit + i] of the collection, without its password, for
    every [i] below [limit]; there are at most [limit] rows, [total] is
    the size of the collection and [pages] is [total / limit] rounded
    up. *)
Theorem get_users_page_contents st page limit :
  pages (l_cache st)
    !! pageKey (default 1%positive page) (default 10%positive limit) = None →
  let p := Pos.to_nat (default 1%positive page) in
  let l := Pos.to_nat (default 10%positive limit) in
  let answer := (get_users st page limit).2 in
  (∀ i, (i < l)%nat →
     data answer !! i = project_password <$> l_users st !! ((p - 1) * l + i)%nat)
  ∧ (length (data answer) ≤ l)%nat
  ∧ pg_total answer = length (l_users st)
  ∧ (pg_total answer ≤ pg_pages answer * l)%nat
  ∧ (pg_pages answer * l < pg_total answer + l)%nat.
Proof.
  intros Hmiss p l answer. subst answer. unfold get_users.
  rewrite Hmiss. simpl. fold p l. split; [|split; [|split; [done|]]].
  - intros i Hi. rewrite lookup_take_lt by done.
    by rewrite lookup_drop, list_lookup_fmap.
  - rewrite length_take. lia.
  - unfold ceil_pages.
    pose proof (Z.div_mod (- Z.of_nat (length (l_users st)))
                  (Z.pos (default 10%positive limit)) ltac:(lia)) as Hdm.
    pose proof (Z.mod_pos_bound (- Z.of_nat (length (l_users st)))
                  (Z.pos (default 10%positive limit)) ltac:(lia)) as Hmod.
    set (d := (- Z.of_nat (length (l_users st)))
              `div` Z.pos (default 10%positive limit)) in *.
    set (r := (- Z.of_nat (length (l_users st)))
              `mod` Z.pos (default 10%positive limit)) in *.
    assert (Hd : 0 ≤ - d) by nia.
    assert (Hnat : Z.of_nat (Z.to_nat (- d) * l)
                   = Z.of_nat (length (l_users st)) + r).
    { rewrite Nat2Z.inj_mul, Z2Nat.id by done. unfold l.
      rewrite positive_nat_Z. lia. }
    split; lia.
Qed.

(** *** The journeys on the concrete process *)

Lemma login_unknown_email_witness :
  (post_users_login sample_compare sample_sign fresh_process
     (mkCredentials None (Some "nobody@example.com") None)).2
  = mkResponse 401 (Error "Invalid credentials")
  ∧ (post_users_login sample_compare sample_sign fresh_process
       (login_as_alice "guess")).2
    = mkResponse 401 (Error "Invalid credentials").
Proof.
  destruct (login_unknown_email sample_compare sample_sign fresh_process
              (mkCredentials None (Some "nobody@example.com") None)
              eq_refl eq_refl)
    as (st' & Hlogin & _ & _ & _ & _ & Hsame).
  split.
  - by rewrite Hlogin.
  - rewrite (Hsame fresh_process (login_as_alice "guess") alice "guess"
               (sample_hash "secret") eq_refl eq_refl eq_refl eq_refl).
    by rewrite Hlogin.
Defined.

Definition bob_signs_up : Credentials :=
  mkCredentials (Some "Bob") (Some "bob@example.com") (Some "hunter2").

Lemma register_then_login_witness :
  (post_users_register sample_hash fresh_process bob_signs_up).2
  = mkResponse 201 (Registered "User registered successfully" 2)
  ∧ (post_users_login sample_compare sample_sign
       (post_users_register sample_hash fresh_process bob_signs_up).1
       bob_signs_up).2
    = mkResponse 200
        (LoggedIn (sample_sign 2 (Some "bob@example.com")) 2 (Some "Bob")
           (Some "bob@example.com")).
Proof.
  apply (register_then_login sample_hash sample_compare sample_sign
           fresh_process bob_signs_up "hunter2").
  - intros u Hu. apply list_elem_of_singleton in Hu. subst u.
    simpl. discriminate.
  - reflexivity.
  - reflexivity.
  - reflexivity.
Defined.

Lemma get_users_id_repeat_witness :
  ∃ st1,
    get_users_id sample_ObjectId fresh_process "651234567890123456789001"
    = (st1, mkResponse 200 (UserData (project_password alice)))
    ∧ password (project_password alice) = None
    ∧ cache st1
      = <[cacheKey (Some "651234567890123456789001")
          := project_password alice]> ∅
    ∧ (∀ us',
         get_users_id sample_ObjectId
           (mkState us' (nextId st1) (cache st1) (metrics st1))
           "651234567890123456789001"
         = (with_metrics inc_cacheHits
              (mkState us' (nextId st1) (cache st1) (metrics st1)),
            mkResponse 200 (UserData (project_password alice)))).
Proof.
  exact (get_users_id_repeat sample_ObjectId fresh_process
           "651234567890123456789001" 1%nat alice eq_refl eq_refl eq_refl).
Defined.

(** Twelve registered users, and the list endpoint of a new process. *)
Definition member (n : nat) : User :=
  mkUser n (Some ("user" +:+ pretty n))
    (Some ("user" +:+ pretty n +:+ "@example.com"))
    (Some (sample_hash "secret")) (Some "active").

Definition twelve_users : ListState :=
  mkListState (member <$> seq 1 12) (mkListCache ∅ None) no_metrics.

Lemma get_users_no_password_witness :
  Forall (fun u => password u = None)
    (data (get_users twelve_users (Some 2%positive) (Some 5%positive)).2)
  ∧ pages_clean
      (l_cache (get_users twelve_users (Some 2%positive) (Some 5%positive)).1).
Proof.
  apply (get_users_no_password twelve_users (Some 2%positive)
           (Some 5%positive)).
  intros key rows Hkey. simpl in Hkey. rewrite lookup_empty in Hkey.
  discriminate.
Defined.

Lemma get_users_page_contents_witness :
  let answer :=
    (get_users twelve_users (Some 2%positive) (Some 5%positive)).2 in
  (∀ i, (i < 5)%nat →
     data answer !! i
     = project_password <$> l_users twelve_users !! ((2 - 1) * 5 + i)%nat)
  ∧ (length (data answer) ≤ 5)%nat
  ∧ pg_total answer = 12%nat
  ∧ (pg_total answer ≤ pg_pages answer * 5)%nat
  ∧ (pg_pages answer * 5 < pg_total answer + 5)%nat.
Proof.
  exact (get_users_page_contents twelve_users (Some 2%positive)
           (Some 5%positive) eq_refl).
Defined.

(** Page 1 is asked for with twelve users stored; four more register and
    page 2 is asked for, a miss that counts sixteen; page 1 asked for
    again has the five rows of before and the total of the later miss. *)
Example first_page_after_four_more :
  let st1 := (get_users twelve_users (Some 1%positive) (Some 5%positive)).1 in
  let later :=
    after_events
      [Stored (member <$> seq 1 16); Asked (Some 2%positive) (Some 5%positive)]
      st1 in
  let again := (get_users later (Some 1%positive) (Some 5%positive)).2 in
  _id <$> data again = [1; 2; 3; 4; 5]%nat
  ∧ pg_total (get_users twelve_users (Some 1%positive) (Some 5%positive)).2
    = 12%nat
  ∧ pg_total again = 16%nat ∧ pg_pages again = 4%nat.
Proof. repeat split. Qed.

(** Page 2 of 5 over the twelve users: users 6 to 10, three pages. *)
Example second_page_of_twelve :
  let answer :=
    (get_users twelve_users (Some 2%positive) (Some 5%positive)).2 in
  _id <$> data answer = [6; 7; 8; 9; 10]%nat
  ∧ pg_total answer = 12%nat ∧ pg_pages answer = 3%nat.
Proof. repeat split. Qed.

(** John, as the seed script inserts him. *)
Definition john : User :=
  mkUser 7 (Some "John Doe") (Some "john@example.com") None (Some "active").

Lemma login_without_stored_hash_witness :
  ∃ st',
    post_users_login sample_compare sample_sign
      (mkState [john] 8 ∅ no_metrics)
      (mkCredentials None (Some "john@example.com") (Some "anything"))
    = (st', mkResponse 500 (Error "data and hash arguments required"))
    ∧ cache st' = <[cacheKey (Some "john@example.com") := john]> ∅
    ∧ userLoginsFailedTotal (metrics st') = 0%nat
    ∧ userLoginsTotal (metrics st') = 0%nat.
Proof.
  exact (login_without_stored_hash sample_compare sample_sign
           (mkState [john] 8 ∅ no_metrics)
           (mkCredentials None (Some "john@example.com") (Some "anything"))
           john "anything" eq_refl eq_refl eq_refl eq_refl).
Defined.

End UserService.

(** ** The product service (index.js of product-service) *)
Module ProductService.

(** A document of the [products] collection. *)
Record Product := mkProduct {
  _id : nat;
  name : string;
  price : Z;
  category : string;
  stock : Z;
  description : string
}.

#[export] Instance Product_eq_dec : EqDecision Product.
Proof. solve_decision. Defined.

Record Metrics := mkMetrics {
  productsCreatedTotal : nat;
  productsViewedTotal : nat;
  productsPurchasedTotal : nat;
  stockUpdatesTotal : nat
}.

(** The collection is keyed by [_id], its primary key; the cache holds the
    object literals [{ products, totalProducts }] the list handler writes. *)
Record State := mkState {
  products : gmap nat Product;
  nextId : nat;
  cache : gmap string (list Product * nat);
  metrics : Metrics
}.

(** The value of the variable [products] in the list handler: the array
    [toArray()] resolves to, or the object read back from the cache. *)
Inductive Listing :=
| Rows (items : list Product)
| Entry (cached : list Product) (totalProducts : nat).

Record Pagination := mkPagination {
  pg_page : positive;
  pg_limit : positive;
  pg_total : option nat;
  pg_pages : option nat
}.

Inductive Body :=
| Error (error : string)
| InsufficientStock (error : string) (available requested : Z)
| Listed (data : Listing) (pagination : Pagination)
| Found (data : Product)
| Created (message : string) (productId : nat) (product : Product)
| StockUpdated (message : string)
| Purchased (message : string) (productId : string) (quantity remainingStock : Z).

Record Response := mkResponse { statusCode : nat; body : Body }.

(** [req.query] of the list endpoint.  [page] and [limit], when given, are
    positive decimal numerals; a parameter that is not given takes the
    default of the destructuring. *)
Record ListQuery := mkListQuery {
  q_category : option string;
  q_page : option positive;
  q_limit : option positive;
  q_sort : option string;
  q_order : option string
}.

(** [req.body] of the create endpoint. *)
Record NewProduct := mkNewProduct {
  b_name : option string;
  b_price : option Z;
  b_category : option string;
  b_stock : option Z;
  b_description : option string
}.

(** JavaScript truthiness of a string and of a number that may be
    undefined: [undefined], [''] and [0] are falsy. *)
Definition truthy_string (s : option string) : option string :=
  match s with
  | Some s => if bool_decide (s = "") then None else Some s
  | None => None
  end.

Definition truthy_number (n : option Z) : option Z :=
  match n with
  | Some n => if bool_decide (n = 0) then None else Some n
  | None => None
  end.

(** [a || b] on counts that may be undefined. *)
Definition or_else (a b : option nat) : option nat :=
  match a with
  | Some (S n) => a
  | _ => b
  end.

(** [products.totalProducts]: undefined on an array. *)
Definition totalProducts_of (l : Listing) : option nat :=
  match l with
  | Rows _ => None
  | Entry _ n => Some n
  end.

(** [Math.ceil(total / limit)]; [NaN] for an undefined total. *)
Definition ceil_div (total : option nat) (limit : positive) : option nat :=
  match total with
  | Some n => Some (Z.to_nat (- ((- Z.of_nat n) `div` Z.pos limit)))
  | None => None
  end.

(** [products.forEach(product => { productsViewedTotal.inc(); })]: one
    increment per element of an array; the object of the cache has no
    [forEach], and calling it throws a [TypeError]. *)
Definition forEach_viewed (l : Listing) (m : Metrics) : option Metrics :=
  match l with
  | Rows items =>
    Some (mkMetrics (productsCreatedTotal m)
            (productsViewedTotal m + length items)%nat
            (productsPurchasedTotal m) (stockUpdatesTotal m))
  | Entry _ _ => None
  end.

Definition inc_created (m : Metrics) : Metrics :=
  mkMetrics (S (productsCreatedTotal m)) (productsViewedTotal m)
    (productsPurchasedTotal m) (stockUpdatesTotal m).
Definition inc_viewed (m : Metrics) : Metrics :=
  mkMetrics (productsCreatedTotal m) (S (productsViewedTotal m))
    (productsPurchasedTotal m) (stockUpdatesTotal m).
Definition inc_purchased (m : Metrics) : Metrics :=
  mkMetrics (productsCreatedTotal m) (productsViewedTotal m)
    (S (productsPurchasedTotal m)) (stockUpdatesTotal m).
Definition inc_stockUpdates (m : Metrics) : Metrics :=
  mkMetrics (productsCreatedTotal m) (productsViewedTotal m)
    (productsPurchasedTotal m) (S (stockUpdatesTotal m)).

Definition with_metrics (m : Metrics) (st : State) : State :=
  mkState (products st) (nextId st) (cache st) m.
Definition with_cache (c : gmap string (list Product * nat)) (st : State)
  : State := mkState (products st) (nextId st) c (metrics st).
Definition with_products (ps : gmap nat Product) (st : State) : State :=
  mkState ps (nextId st) (cache st) (metrics st).

(** [$inc: { stock: delta }], on integers that the sum does not take out
    of the range a double holds exactly. *)
Definition inc_stock (delta : Z) (p : Product) : Product :=
  mkProduct (_id p) (name p) (price p) (category p) (stock p + delta)
    (description p).

(** [updateOne(filter, update)] where the filter fixes [_id]: the document
    with that [_id] is rewritten when it also passes the rest of the
    filter.  The second component is [result.modifiedCount]. *)
Definition updateOne (oid : nat) (rest : Product → bool)
    (update : Product → Product) (ps : gmap nat Product)
  : gmap nat Product * nat :=
  match ps !! oid with
  | Some p => if rest p then (<[oid := update p]> ps, 1%nat) else (ps, 0%nat)
  | None => (ps, 0%nat)
  end.

(** The cache key of the list handler. *)
Definition listKey (q : ListQuery) : string :=
  "products:" +:+ default "all" (truthy_string (q_category q))
  +:+ ":page:" +:+ pretty (default 1%positive (q_page q))
  +:+ ":limit:" +:+ pretty (default 10%positive (q_limit q))
  +:+ ":sort:" +:+ default "name" (q_sort q)
  +:+ ":order:" +:+ default "asc" (q_order q).

Section Handlers.
(** [new ObjectId(id)], which throws on a string that is no object id, and
    the order in which MongoDB returns documents for
    [.sort({ [sort]: sortOrder })] ([true] for [-1], descending). *)
Variable ObjectId : string → option nat.
Variable mongo_sort : string → bool → list Product → list Product.

(** [find(query)] and [countDocuments(query)] for
    [query = category ? { category } : {}]. *)
Definition find_query (ps : gmap nat Product) (cat : option string)
  : list Product :=
  match truthy_string cat with
  | Some c => List.filter (fun p => bool_decide (category p = c))
                (snd <$> map_to_list ps)
  | None => snd <$> map_to_list ps
  end.

(** [app.get('/api/products', ...)] *)
Definition get_products (st : State) (q : ListQuery) : State * Response :=
  let page := default 1%positive (q_page q) in
  let limit := default 10%positive (q_limit q) in
  let skip := ((Pos.to_nat page - 1) * Pos.to_nat limit)%nat in
  let sortOrder := bool_decide (default "asc" (q_order q) = "desc") in
  let cacheKey := listKey q in
  let '(st1, products, totalProducts) :=
    match JsMap.get (cache st) cacheKey with
    | Some (cached, n) => (st, Entry cached n, None)
    | None =>
      let rows :=
        take (Pos.to_nat limit)
          (drop skip
             (mongo_sort (default "name" (q_sort q)) sortOrder
                (find_query (products st) (q_category q)))) in
      let n := length (find_query (products st) (q_category q)) in
      (with_cache (JsMap.set (cache st) cacheKey (rows, n) 30000) st,
       Rows rows, Some n)
    end in
  match forEach_viewed products (metrics st1) with
  | None =>
    (st1, mkResponse 500 (Error "products.forEach is not a function"))
  | Some m =>
    let total := or_else totalProducts (totalProducts_of products) in
    (with_metrics m st1,
     mkResponse 200
       (Listed products (mkPagination page limit total (ceil_div total limit))))
  end.

(** [app.get('/api/products/:id', ...)] *)
Definition get_products_id (st : State) (id : string) : State * Response :=
  match ObjectId id with
  | None => (st, mkResponse 500 (Error BSONError_message))
  | Some oid =>
    match products st !! oid with
    | None => (st, mkResponse 404 (Error "Product not found"))
    | Some product =>
      (with_metrics (inc_viewed (metrics st)) st,
       mkResponse 200 (Found product))
    end
  end.

(** [app.post('/api/products', ...)] *)
Definition post_products (st : State) (b : NewProduct) : State * Response :=
  match truthy_string (b_name b), truthy_number (b_price b),
        truthy_string (b_category b) with
  | Some n, Some pr, Some c =>
    let product := mkProduct (nextId st) n pr c
                     (default 0 (truthy_number (b_stock b)))
                     (default "" (truthy_string (b_description b))) in
    (mkState (<[nextId st := product]> (products st)) (S (nextId st))
       (JsMap.clear (cache st)) (inc_created (metrics st)),
     mkResponse 201
       (Created "Product created successfully" (nextId st) product))
  | _, _, _ => (st, mkResponse 400 (Error "Missing required fields"))
  end.

(** [app.put('/api/products/:id/stock', ...)]; [quantity] is [None] when
    [typeof quantity !== 'number']. *)
Definition put_products_stock (st : State) (id : string)
    (quantity : option Z) : State * Response :=
  match quantity with
  | None => (st, mkResponse 400 (Error "Quantity must be a number"))
  | Some quantity =>
    match ObjectId id with
    | None => (st, mkResponse 500 (Error BSONError_message))
    | Some oid =>
      let '(ps, modifiedCount) :=
        updateOne oid (fun _ => true) (inc_stock quantity) (products st) in
      let st1 := with_metrics (inc_stockUpdates (metrics st))
                   (with_products ps st) in
      if bool_decide (modifiedCount = 0%nat) then
        (st1, mkResponse 404 (Error "Product not found"))
      else
        (with_cache (JsMap.clear (cache st1)) st1,
         mkResponse 200 (StockUpdated "Stock updated successfully"))
    end
  end.

(** The purchase handler up to its first database round trip:
    [findOne], the 404 and the stock check on what was read. *)
Definition purchase_find (st : State) (id : string) (quantity : option Z)
  : Response + Z * Product :=
  let quantity := default 1 quantity in
  match ObjectId id with
  | None => inl (mkResponse 500 (Error BSONError_message))
  | Some oid =>
    match products st !! oid with
    | None => inl (mkResponse 404 (Error "Product not found"))
    | Some product =>
      if bool_decide (stock product < quantity) then
        inl (mkResponse 400
               (InsufficientStock "Insufficient stock" (stock product)
                  quantity))
      else inr (quantity, product)
    end
  end.

(** The rest of the purchase handler: the [updateOne] filtered on
    [stock: { $gte: quantity }], and the answer built from
    [modifiedCount] and the document read before. *)
Definition purchase_update (st : State) (id : string) (quantity : Z)
    (product : Product) : State * Response :=
  match ObjectId id with
  | None => (st, mkResponse 500 (Error BSONError_message))
  | Some oid =>
    let '(ps, modifiedCount) :=
      updateOne oid (fun p => bool_decide (quantity ≤ stock p))
        (inc_stock (- quantity)) (products st) in
    let st1 := with_products ps st in
    if bool_decide (modifiedCount = 0%nat) then
      (st1, mkResponse 400 (Error "Failed to process purchase"))
    else
      let st2 := with_metrics (inc_stockUpdates (inc_purchased (metrics st1)))
                   st1 in
      (with_cache (JsMap.clear (cache st2)) st2,
       mkResponse 200
         (Purchased "Purchase successful" id quantity
            (stock product - quantity)))
  end.

(** [app.post('/api/products/:id/purchase', ...)] *)
Definition post_products_purchase (st : State) (id : string)
    (quantity : option Z) : State * Response :=
  match purchase_find st id quantity with
  | inl response => (st, response)
  | inr (quantity, product) => purchase_update st id quantity product
  end.

(** *** Requests in flight

    A handler runs until its next [await]; the two [await]s of the
    purchase handler are its two round trips to the database, each of
    which MongoDB applies to the document atomically.  A purchase request
    in flight is therefore in one of three places: not yet at [findOne],
    between the stock check and [updateOne] (holding the document it
    read), or answered. *)
Inductive Task :=
| Arrived (id : string) (quantity : option Z)
| Checked (id : string) (quantity : Z) (product : Product)
| Answered (response : Response).

Definition task_step (st : State) (t : Task) : State * Task :=
  match t with
  | Arrived id quantity =>
    match purchase_find st id quantity with
    | inl response => (st, Answered response)
    | inr (quantity, product) => (st, Checked id quantity product)
    end
  | Checked id quantity product =>
    let '(st1, response) := purchase_update st id quantity product in
    (st1, Answered response)
  | Answered _ => (st, t)
  end.

(** Two requests in flight against one process, and the order in which
    the event loop resumes them. *)
Record Flight := mkFlight { db : State; first : Task; second : Task }.

Inductive Turn := First | Second.

Definition turn (f : Flight) (who : Turn) : Flight :=
  match who with
  | First =>
    let '(st, t) := task_step (db f) (first f) in mkFlight st t (second f)
  | Second =>
    let '(st, t) := task_step (db f) (second f) in mkFlight st (first f) t
  end.

Definition run (sched : list Turn) (f : Flight) : Flight :=
  fold_left turn sched f.




(** *** The conditional update *)

Lemma updateOne_other oid rest update ps j :
  j ≠ oid → (updateOne oid rest update ps).1 !! j = ps !! j.
Proof.
  intros Hne. unfold updateOne.
  destruct (ps !! oid) as [p|]; [|done].
  destruct (rest p); simpl; [|done]. by rewrite lookup_insert_ne.
Qed.

Lemma updateOne_hit oid rest update ps p :
  ps !! oid = Some p → rest p = true →
  updateOne oid rest update ps = (<[oid := update p]> ps, 1%nat).
Proof. intros Hp Hrest. unfold updateOne. by rewrite Hp, Hrest. Qed.



Lemma purchase_update_applies st id oid quantity snapshot current :
  ObjectId id = Some oid →
  products st !! oid = Some current →
  quantity ≤ stock current →
  ∃ st',
    purchase_update st id quantity snapshot
    = (st', mkResponse 200
              (Purchased "Purchase successful" id quantity
                 (stock snapshot - quantity)))
    ∧ products st'
      = <[oid := inc_stock (- quantity) current]> (products st).
Proof.
  intros Hid Hcur Hle. unfold purchase_update. rewrite Hid.
  rewrite (updateOne_hit _ _ _ _ _ Hcur); [|by apply bool_decide_eq_true].
  simpl. eexists; split; reflexivity.
Qed.

(** The stock of every document is non-negative. *)
Definition stock_nonneg (ps : gmap nat Product) : Prop :=
  ∀ i p, ps !! i = Some p → 0 ≤ stock p.

(** A purchase keeps every stock non-negative, for any quantity. *)
Lemma purchase_keeps_stock_nonneg st id quantity :
  stock_nonneg (products st) →
  stock_nonneg (products (post_products_purchase st id quantity).1).
Proof.
  intros Hnn. unfold post_products_purchase, purchase_find.
  destruct (ObjectId id) as [oid|] eqn:Hid; [|done].
  destruct (products st !! oid) as [cur|] eqn:Hcur; [|done].
  case_bool_decide as Hlow; [done|].
  unfold purchase_update. rewrite Hid.
  rewrite (updateOne_hit _ _ _ _ _ Hcur);
    [|apply bool_decide_eq_true; lia].
  simpl. intros i p. destruct (decide (i = oid)) as [->|Hne].
  - rewrite lookup_insert_eq. intros [= <-]. simpl. lia.
  - rewrite lookup_insert_ne by done. apply Hnn.
Qed.

(** C1 fails on the stock endpoint: its [$inc] carries no condition on
    the stock.  For every product and every numeric quantity below the
    negated stock, [PUT /api/products/:id/stock] is answered 200 and
    leaves the product with a negative stock. *)
Theorem put_stock_below_zero st id oid p quantity :
  ObjectId id = Some oid →
  products st !! oid = Some p →
  stock p + quantity < 0 →
  ∃ st' p',
    put_products_stock st id (Some quantity)
    = (st', mkResponse 200 (StockUpdated "Stock updated successfully"))
    ∧ products st' !! oid = Some p'
    ∧ stock p' = stock p + quantity
    ∧ stock p' < 0.
Proof.
  intros Hid Hp Hneg. unfold put_products_stock. rewrite Hid.
  rewrite (updateOne_hit _ _ _ _ _ Hp) by done. simpl.
  eexists _, _. split; [reflexivity|]. simpl.
  rewrite lookup_insert_eq. split; [reflexivity|]. simpl. lia.
Qed.

(** The create handler stores a negative [stock] as it is given. *)
Example post_products_negative_stock st :
  stock <$> products
              (post_products st
                 (mkNewProduct (Some "Mouse") (Some 1999)
                    (Some "electronics") (Some (-5)) None)).1
            !! nextId st
  = Some (-5).
Proof. unfold post_products; simpl. by rewrite lookup_insert_eq. Qed.

(** *** Creating a product *)

(** C8, as the code has it, for product creation: a request whose [name],
    [price] or [category] is missing (or falsy: the empty string, a zero
    price) is answered 400 with the fixed message [Missing required
    fields], whichever fields are missing, and the state is the one
    before: nothing is inserted, the cache is not cleared, no counter
    moves. *)
Theorem post_products_missing_fields st b :
  truthy_string (b_name b) = None
  ∨ truthy_number (b_price b) = None
  ∨ truthy_string (b_category b) = None →
  post_products st b = (st, mkResponse 400 (Error "Missing required fields")).
Proof.
  unfold post_products. intros [H | [H | H]]; rewrite H.
  - done.
  - by destruct (truthy_string (b_name b)).
  - by destruct (truthy_string (b_name b)), (truthy_number (b_price b)).
Qed.

Lemma post_products_complete st b n pr c :
  truthy_string (b_name b) = Some n →
  truthy_number (b_price b) = Some pr →
  truthy_string (b_category b) = Some c →
  ∃ product,
    post_products st b
    = (mkState (<[nextId st := product]> (products st)) (S (nextId st)) ∅
         (inc_created (metrics st)),
       mkResponse 201
         (Created "Product created successfully" (nextId st) product))
    ∧ name product = n ∧ price product = pr ∧ category product = c.
Proof.
  intros Hn Hp Hc. unfold post_products. rewrite Hn, Hp, Hc.
  eexists; split; [reflexivity|]. done.
Qed.

(** *** Listing products *)

Lemma get_products_miss st q :
  cache st !! listKey q = None →
  ∃ rows n m,
    get_products st q
    = (mkState (products st) (nextId st)
         (<[listKey q := (rows, n)]> (cache st)) m,
       mkResponse 200
         (Listed (Rows rows)
            (mkPagination (default 1%positive (q_page q))
               (default 10%positive (q_limit q))
               (or_else (Some n) None)
               (ceil_div (or_else (Some n) None)
                  (default 10%positive (q_limit q))))))
    ∧ n = length (find_query (products st) (q_category q)).
Proof.
  intros Hmiss. unfold get_products, JsMap.get. rewrite Hmiss. simpl.
  eexists _, _, _. split; reflexivity.
Qed.

Lemma get_products_hit st q cached n :
  cache st !! listKey q = Some (cached, n) →
  get_products st q
  = (st, mkResponse 500 (Error "products.forEach is not a function")).
Proof.
  intros Hhit. unfold get_products, JsMap.get. by rewrite Hhit.
Qed.

(** C5 fails: the first request, a miss, is answered 200 with the rows and
    the pagination, and writes the object [{ products, totalProducts }] to
    the cache; the same request again reads that object back into
    [products], calls [forEach] on it, and is answered 500. *)
Theorem get_products_repeat_fails st q :
  cache st !! listKey q = None →
  ∃ st1 rows pagination,
    get_products st q
    = (st1, mkResponse 200 (Listed (Rows rows) pagination))
    ∧ get_products st1 q
      = (st1, mkResponse 500 (Error "products.forEach is not a function")).
Proof.
  intros Hmiss.
  destruct (get_products_miss st q Hmiss) as (rows & n & m & Hfirst & _).
  eexists _, _, _. split; [exact Hfirst|].
  apply (get_products_hit _ _ rows n). simpl. apply lookup_insert_eq.
Qed.

(** *** Two purchases racing for the same product

    Both requests ask for [q] units of the product [oid], whose stock [s]
    covers one of them but not both. *)
Section Race.
Variables (id : string) (oid : nat) (s q : Z).
Hypothesis Hid : ObjectId id = Some oid.
Hypothesis Hone : q ≤ s.
Hypothesis Hnot_both : s - q < q.













End Race.






End Handlers.

(** *** A concrete process *)
Definition sample_ObjectId (s : string) : option nat :=
  if bool_decide (s = "651234567890123456789101") then Some 1%nat else None.
Definition sample_sort (field : string) (descending : bool)
    (l : list Product) : list Product := l.

Definition laptop : Product :=
  mkProduct 1 "Laptop" 99999 "electronics" 10 "".

Definition one_product : State :=
  mkState {[ 1%nat := laptop ]} 2 ∅ (mkMetrics 0 0 0 0).

Definition everything : ListQuery := mkListQuery None None None None None.



(** When the second request reads only after the first has written, it is
    the stock check that turns it away. *)
Example one_after_the_other :
  let f := run sample_ObjectId [First; First; Second; Second]
             (mkFlight one_product
                (Arrived "651234567890123456789101" (Some 6))
                (Arrived "651234567890123456789101" (Some 6))) in
  first f = Answered (mkResponse 200
                        (Purchased "Purchase successful"
                           "651234567890123456789101" 6 4))
  ∧ second f = Answered (mkResponse 400
                           (InsufficientStock "Insufficient stock" 4 6))
  ∧ stock <$> products (db f) !! 1%nat = Some 4.
Proof. repeat split. Qed.

Lemma put_stock_below_zero_witness :
  ∃ st' p',
    put_products_stock sample_ObjectId one_product
      "651234567890123456789101" (Some (-11))
    = (st', mkResponse 200 (StockUpdated "Stock updated successfully"))
    ∧ products st' !! 1%nat = Some p'
    ∧ stock p' = 10 + -11
    ∧ stock p' < 0.
Proof.
  apply (put_stock_below_zero sample_ObjectId one_product
           "651234567890123456789101" 1%nat laptop (-11));
    [reflexivity | reflexivity | simpl; lia].
Defined.

Lemma post_products_missing_fields_witness :
  post_products one_product
    (mkNewProduct None (Some 1999) (Some "electronics") (Some 5) None)
  = (one_product, mkResponse 400 (Error "Missing required fields")).
Proof.
  apply post_products_missing_fields. left. reflexivity.
Defined.

Lemma get_products_repeat_fails_witness :
  ∃ st1 rows pagination,
    get_products sample_sort one_product everything
    = (st1, mkResponse 200 (Listed (Rows rows) pagination))
    ∧ get_products sample_sort st1 everything
      = (st1, mkResponse 500 (Error "products.forEach is not a function")).
Proof.
  apply get_products_repeat_fails. reflexivity.
Defined.

(** The two answers of the repeated request, evaluated. *)
Example get_products_twice :
  (get_products sample_sort one_product everything).2
  = mkResponse 200
      (Listed (Rows [laptop]) (mkPagination 1 10 (Some 1%nat) (Some 1%nat)))
  ∧ (get_products sample_sort
       (get_products sample_sort one_product everything).1 everything).2
    = mkResponse 500 (Error "products.forEach is not a function").
Proof. split; reflexivity. Qed.

(** *** What the handlers do around the conditional update *)
Section Outcomes.
Variable ObjectId : string → option nat.
Variable mongo_sort : string → bool → list Product → list Product.

(** The purchase handler on a product it finds, run to its answer with no
    other request in between: the quantity (1 when the body has none) is
    taken off the stock when the stock covers it, and the answer carries
    the stock that is left; otherwise the answer is the 400 of the stock
    check and nothing has changed.  No sign is asked of the quantity. *)
Theorem purchase_outcomes st id oid p quantity :
  ObjectId id = Some oid →
  products st !! oid = Some p →
  (default 1 quantity ≤ stock p →
   ∃ st',
     post_products_purchase ObjectId st id quantity
     = (st', mkResponse 200
               (Purchased "Purchase successful" id (default 1 quantity)
                  (stock p - default 1 quantity)))
     ∧ stock <$> products st' !! oid = Some (stock p - default 1 quantity)
     ∧ (∀ j, j ≠ oid → products st' !! j = products st !! j)
     ∧ cache st' = ∅)
  ∧ (stock p < default 1 quantity →
     post_products_purchase ObjectId st id quantity
     = (st, mkResponse 400
              (InsufficientStock "Insufficient stock" (stock p)
                 (default 1 quantity)))).
Proof.
  intros Hid Hp. unfold post_products_purchase, purchase_find.
  rewrite Hid, Hp. split; intros Hq.
  - rewrite bool_decide_eq_false_2 by lia.
    destruct (purchase_update_applies ObjectId st id oid (default 1 quantity)
                p p Hid Hp Hq) as (st' & Hupd & Hps).
    exists st'. split; [done|]. rewrite Hps.
    split; [by rewrite lookup_insert_eq; simpl; f_equal; lia|].
    split; [intros j Hj; by rewrite lookup_insert_ne|].
    unfold purchase_update in Hupd. rewrite Hid in Hupd.
    rewrite (updateOne_hit _ _ _ _ _ Hp) in Hupd
      by (by apply bool_decide_eq_true).
    simpl in Hupd. by inversion Hupd.
  - by rewrite bool_decide_eq_true_2 by lia.
Qed.

(** A stock update for an id that no product has is answered 404 and
    leaves the products and the cache alone, yet [stock_updates_total] has
    gone up by one: the counter is incremented before [modifiedCount] is
    looked at. *)
Theorem put_stock_unknown_product st id oid quantity :
  ObjectId id = Some oid →
  products st !! oid = None →
  ∃ st',
    put_products_stock ObjectId st id (Some quantity)
    = (st', mkResponse 404 (Error "Product not found"))
    ∧ products st' = products st
    ∧ cache st' = cache st
    ∧ stockUpdatesTotal (metrics st') = S (stockUpdatesTotal (metrics st)).
Proof.
  intros Hid Hp. unfold put_products_stock, updateOne. rewrite Hid, Hp.
  simpl. eexists; split; [reflexivity|]. done.
Qed.

(** *** The list after a write, and the shape of a page *)

Lemma find_query_insert ps i product cat :
  (truthy_string cat = None ∨ truthy_string cat = Some (category product)) →
  product ∈ find_query (<[i := product]> ps) cat.
Proof.
  assert (Hin : product ∈ (snd <$> map_to_list (<[i := product]> ps))).
  { apply list_elem_of_fmap. exists (i, product). split; [done|].
    apply elem_of_map_to_list, lookup_insert_eq. }
  unfold find_query. intros [-> | ->]; [done|].
  apply list_elem_of_In, filter_In. split; [by apply list_elem_of_In|].
  by apply bool_decide_eq_true.
Qed.

(** A product creation empties the cache, so the list request that
    follows is answered 200 from the collection, whatever was cached
    before: its rows are the page cut out of the sorted documents of the
    collection that match the query, the collection being the one before
    with the new product under its id.  The new product is among the
    matching documents when the query has no category or has the
    product's; it is then among the rows of the first page whenever the
    matching documents fit on one page (MongoDB's sort returning the
    documents it is given, in some order).  Without a category the total
    is one more than the number of products before. *)
Theorem list_after_create st b q n pr c :
  truthy_string (b_name b) = Some n →
  truthy_number (b_price b) = Some pr →
  truthy_string (b_category b) = Some c →
  products st !! nextId st = None →
  (∀ field descending l, mongo_sort field descending l ≡ₚ l) →
  ∃ product st1 rows pagination,
    (post_products st b).2
    = mkResponse 201
        (Created "Product created successfully" (nextId st) product)
    ∧ name product = n ∧ price product = pr ∧ category product = c
    ∧ products (post_products st b).1
      = <[nextId st := product]> (products st)
    ∧ get_products mongo_sort (post_products st b).1 q
      = (st1, mkResponse 200 (Listed (Rows rows) pagination))
    ∧ rows
      = take (Pos.to_nat (default 10%positive (q_limit q)))
          (drop ((Pos.to_nat (default 1%positive (q_page q)) - 1)
                 * Pos.to_nat (default 10%positive (q_limit q)))
             (mongo_sort (default "name" (q_sort q))
                (bool_decide (default "asc" (q_order q) = "desc"))
                (find_query (<[nextId st := product]> (products st))
                   (q_category q))))
    ∧ (truthy_string (q_category q) = None
       ∨ truthy_string (q_category q) = Some c →
       product ∈ find_query (<[nextId st := product]> (products st))
                   (q_category q)
       ∧ (default 1%positive (q_page q) = 1%positive →
          (length (find_query (<[nextId st := product]> (products st))
                     (q_category q))
           ≤ Pos.to_nat (default 10%positive (q_limit q)))%nat →
          product ∈ rows))
    ∧ (truthy_string (q_category q) = None →
       pg_total pagination = Some (S (size (products st)))).
Proof.
  intros Hn Hp Hc Hfresh Hsort.
  destruct (post_products_complete st b n pr c Hn Hp Hc)
    as (product & Hpost & Hname & Hprice & Hcat).
  rewrite Hpost; cbn [fst snd].
  exists product.
  assert (Hget : get_products mongo_sort
                   (mkState (<[nextId st := product]> (products st))
                      (S (nextId st)) ∅ (inc_created (metrics st))) q
                 = get_products mongo_sort
                     (mkState (<[nextId st := product]> (products st))
                        (S (nextId st)) ∅ (inc_created (metrics st))) q)
    by reflexivity.
  unfold get_products at 2 in Hget. unfold JsMap.get in Hget.
  cbn [cache] in Hget. rewrite lookup_empty in Hget.
  cbn [forEach_viewed products metrics with_cache] in Hget.
  rewrite Hget. eexists _, _, _.
  split; [reflexivity|]. split; [done|]. split; [done|]. split; [done|].
  split; [reflexivity|]. split; [reflexivity|]. split; [reflexivity|].
  split.
  - intros Hmatch.
    assert (Hin : product ∈ find_query (<[nextId st := product]> (products st))
                              (q_category q)).
    { apply find_query_insert. by rewrite Hcat. }
    split; [done|]. intros Hpage Hfit. rewrite Hpage. simpl.
    rewrite drop_0, take_ge by (by rewrite (Permutation_length (Hsort _ _ _))).
    by rewrite Hsort.
  - intros Hall. simpl. unfold find_query. rewrite Hall.
    rewrite length_fmap, length_map_to_list.
    by rewrite (map_size_insert_None _ _ _ Hfresh).
Qed.

Lemma ceil_div_bounds (n : nat) (limit : positive) :
  ∃ k, ceil_div (Some n) limit = Some k
       ∧ (n ≤ k * Pos.to_nat limit)%nat
       ∧ (k * Pos.to_nat limit < n + Pos.to_nat limit)%nat.
Proof.
  unfold ceil_div. eexists; split; [reflexivity|].
  pose proof (Z.div_mod (- Z.of_nat n) (Z.pos limit) ltac:(lia)) as Hdm.
  pose proof (Z.mod_pos_bound (- Z.of_nat n) (Z.pos limit) ltac:(lia))
    as Hmod.
  set (d := (- Z.of_nat n) `div` Z.pos limit) in *.
  set (r := (- Z.of_nat n) `mod` Z.pos limit) in *.
  assert (Hk : (- d) * Z.pos limit = Z.of_nat n + r) by lia.
  assert (Hd : 0 ≤ - d) by nia.
  assert (Hnat : Z.of_nat (Z.to_nat (- d) * Pos.to_nat limit)
                 = Z.of_nat n + r).
  { rewrite Nat2Z.inj_mul, Z2Nat.id by done.
    by rewrite positive_nat_Z. }
  split; lia.
Qed.

(** A list request that misses the cache returns at most [limit] rows;
    its [total] is the number of documents the query matches, and [pages]
    is that number divided by [limit], rounded up.  When nothing matches,
    [total] is undefined and [pages] is [NaN]: the zero count is falsy in
    [totalProducts || products.totalProducts]. *)
Theorem get_products_page_shape st q :
  cache st !! listKey q = None →
  ∃ st1 rows pagination,
    get_products mongo_sort st q
    = (st1, mkResponse 200 (Listed (Rows rows) pagination))
    ∧ (length rows ≤ Pos.to_nat (default 10%positive (q_limit q)))%nat
    ∧ match length (find_query (products st) (q_category q)) with
      | O => pg_total pagination = None ∧ pg_pages pagination = None
      | S n =>
        pg_total pagination = Some (S n)
        ∧ ∃ k, pg_pages pagination = Some k
               ∧ (S n ≤ k * Pos.to_nat (default 10%positive (q_limit q)))%nat
               ∧ (k * Pos.to_nat (default 10%positive (q_limit q))
                  < S n + Pos.to_nat (default 10%positive (q_limit q)))%nat
      end.
Proof.
  intros Hmiss. unfold get_products, JsMap.get. rewrite Hmiss. simpl.
  eexists _, _, _. split; [reflexivity|]. split.
  - rewrite length_take. lia.
  - simpl. destruct (length (find_query (products st) (q_category q)))
      as [|n]; simpl; [done|].
    split; [done|].
    destruct (ceil_div_bounds (S n) (default 10%positive (q_limit q)))
      as (k & Hk & Hlo & Hhi).
    exists k. by rewrite <- Hk.
Qed.

(** *** Any number of purchases in flight *)

(** A pool of requests against one process; the event loop resumes the
    request at position [i]. *)
Definition pool_turn (c : State * list Task) (i : nat) : State * list Task :=
  match c.2 !! i with
  | Some t =>
    let '(st, t') := task_step ObjectId c.1 t in (st, <[i := t']> c.2)
  | None => c
  end.

Definition pool_run (sched : list nat) (c : State * list Task)
  : State * list Task := fold_left pool_turn sched c.

(** The units of the product [oid] that an answer tells its client it
    bought. *)
Definition units_sold (oid : nat) (t : Task) : Z :=
  match t with
  | Answered (mkResponse _ (Purchased _ id quantity _)) =>
    if bool_decide (ObjectId id = Some oid) then quantity else 0
  | _ => 0
  end.

Definition pool_sold (oid : nat) (ts : list Task) : Z :=
  foldr (fun t acc => units_sold oid t + acc) 0 ts.

Definition stock_at (st : State) (oid : nat) : Z :=
  default 0 (stock <$> products st !! oid).

Lemma task_step_stock_nonneg st t :
  stock_nonneg (products st) →
  stock_nonneg (products (task_step ObjectId st t).1).
Proof.
  intros Hnn. destruct t as [id quantity | id quantity product | r]; simpl.
  - by destruct (purchase_find ObjectId st id quantity) as [r | [q0 p0]].
  - unfold purchase_update. destruct (ObjectId id) as [oid|]; [|done].
    unfold updateOne. destruct (products st !! oid) as [cur|] eqn:Hcur;
      [|done].
    case_bool_decide as Hguard; simpl; [|done].
    intros j pj. destruct (decide (j = oid)) as [->|Hne].
    + rewrite lookup_insert_eq. intros [= <-]. simpl. lia.
    + rewrite lookup_insert_ne by done. apply Hnn.
  - done.
Qed.

Lemma task_step_conserves oid st t :
  stock_at (task_step ObjectId st t).1 oid
  + units_sold oid (task_step ObjectId st t).2
  = stock_at st oid + units_sold oid t.
Proof.
  destruct t as [id quantity | id quantity product | r]; simpl; [| |done].
  - unfold purchase_find.
    destruct (ObjectId id) as [o|]; [|done].
    destruct (products st !! o) as [cur|]; [|done].
    by case_bool_decide.
  - unfold purchase_update. destruct (ObjectId id) as [o|] eqn:Hid; [|done].
    unfold updateOne. destruct (products st !! o) as [cur|] eqn:Hcur;
      [|done].
    case_bool_decide as Hguard; simpl; [|done].
    unfold stock_at; simpl. rewrite Hid.
    destruct (decide (o = oid)) as [->|Hne].
    + rewrite bool_decide_eq_true_2 by done.
      rewrite lookup_insert_eq, Hcur. simpl. lia.
    + rewrite bool_decide_eq_false_2 by congruence.
      by rewrite lookup_insert_ne.
Qed.

Lemma pool_sold_insert oid ts i t t' :
  ts !! i = Some t →
  pool_sold oid (<[i := t']> ts)
  = pool_sold oid ts - units_sold oid t + units_sold oid t'.
Proof.
  revert i. induction ts as [|t0 ts IH]; intros [|i] Hi; try done.
  - simpl in *. injection Hi as ->. lia.
  - simpl in *. rewrite (IH i Hi). lia.
Qed.

Lemma pool_turn_invariant oid c i :
  stock_nonneg (products c.1) →
  stock_nonneg (products (pool_turn c i).1)
  ∧ stock_at (pool_turn c i).1 oid + pool_sold oid (pool_turn c i).2
    = stock_at c.1 oid + pool_sold oid c.2.
Proof.
  intros Hnn. unfold pool_turn.
  destruct (c.2 !! i) as [t|] eqn:Hi; [|done].
  pose proof (task_step_stock_nonneg c.1 t Hnn) as Hnn'.
  pose proof (task_step_conserves oid c.1 t) as Hcons.
  destruct (task_step ObjectId c.1 t) as [st' t']; simpl in *.
  split; [done|]. rewrite (pool_sold_insert _ _ _ _ _ Hi). lia.
Qed.

(** However many purchase requests are in flight, wherever each of them
    stands and in whatever order they are resumed: no stock becomes
    negative, and for every product the stock together with the units the
    200 answers report sold stays what it was.  Starting from requests
    none of which has been answered, the units sold never exceed the
    stock there was. *)
Theorem pool_never_oversells sched st ts oid :
  stock_nonneg (products st) →
  stock_nonneg (products (pool_run sched (st, ts)).1)
  ∧ stock_at (pool_run sched (st, ts)).1 oid
    + pool_sold oid (pool_run sched (st, ts)).2
    = stock_at st oid + pool_sold oid ts
  ∧ (pool_sold oid ts = 0 →
     pool_sold oid (pool_run sched (st, ts)).2 ≤ stock_at st oid).
Proof.
  intros Hnn.
  assert (Hrun : ∀ c, stock_nonneg (products c.1) →
    stock_nonneg (products (pool_run sched c).1)
    ∧ stock_at (pool_run sched c).1 oid + pool_sold oid (pool_run sched c).2
      = stock_at c.1 oid + pool_sold oid c.2).
  { induction sched as [|i sched IH]; intros c Hc; [done|]. simpl.
    destruct (pool_turn_invariant oid c i Hc) as [Hc' Heq].
    destruct (IH _ Hc') as [? ?]. split; [done|]. lia. }
  destruct (Hrun (st, ts) Hnn) as [Hnn' Heq]. simpl in Heq.
  split; [done|]. split; [done|]. intros Hzero.
  assert (0 ≤ stock_at (pool_run sched (st, ts)).1 oid); [|lia].
  unfold stock_at.
  destruct (products (pool_run sched (st, ts)).1 !! oid) as [p'|] eqn:Hp';
    simpl; [by apply (Hnn' oid)|done].
Qed.

End Outcomes.

Lemma purchase_outcomes_witness :
  (∃ st',
     post_products_purchase sample_ObjectId one_product
       "651234567890123456789101" (Some (-5))
     = (st', mkResponse 200
               (Purchased "Purchase successful" "651234567890123456789101"
                  (-5) (10 - -5)))
     ∧ stock <$> products st' !! 1%nat = Some (10 - -5)
     ∧ (∀ j, j ≠ 1%nat → products st' !! j = products one_product !! j)
     ∧ cache st' = ∅)
  ∧ post_products_purchase sample_ObjectId one_product
      "651234567890123456789101" (Some 11)
    = (one_product,
       mkResponse 400 (InsufficientStock "Insufficient stock" 10 11)).
Proof.
  split.
  - apply (proj1 (purchase_outcomes sample_ObjectId one_product
                    "651234567890123456789101" 1%nat laptop (Some (-5))
                    eq_refl eq_refl)).
    simpl; lia.
  - apply (proj2 (purchase_outcomes sample_ObjectId one_product
                    "651234567890123456789101" 1%nat laptop (Some 11)
                    eq_refl eq_refl)).
    simpl; lia.
Defined.

Definition unknown_ObjectId (s : string) : option nat :=
  if bool_decide (s = "651234567890123456789199") then Some 99%nat
  else sample_ObjectId s.

Lemma put_stock_unknown_product_witness :
  ∃ st',
    put_products_stock unknown_ObjectId one_product
      "651234567890123456789199" (Some 3)
    = (st', mkResponse 404 (Error "Product not found"))
    ∧ products st' = products one_product
    ∧ cache st' = cache one_product
    ∧ stockUpdatesTotal (metrics st') = 1%nat.
Proof.
  exact (put_stock_unknown_product unknown_ObjectId one_product
           "651234567890123456789199" 99%nat 3 eq_refl eq_refl).
Defined.

Lemma list_after_create_witness :
  ∃ product st1 rows pagination,
    get_products sample_sort
      (post_products one_product
         (mkNewProduct (Some "Mouse") (Some 1999) (Some "electronics")
            (Some 5) None)).1
      everything
    = (st1, mkResponse 200 (Listed (Rows rows) pagination))
    ∧ name product = "Mouse"
    ∧ product ∈ rows
    ∧ pg_total pagination = Some 2%nat.
Proof.
  destruct (list_after_create sample_sort one_product
              (mkNewProduct (Some "Mouse") (Some 1999) (Some "electronics")
                 (Some 5) None)
              everything "Mouse" 1999 "electronics"
              eq_refl eq_refl eq_refl eq_refl
              (fun _ _ l => Permutation_refl l))
    as (product & st1 & rows & pagination & _ & Hname & _ & _ & _ & Hget
        & _ & Hin & Htotal).
  exists product, st1, rows, pagination.
  split; [exact Hget|]. split; [exact Hname|]. split.
  - apply Hin; [by left | reflexivity |]. vm_compute. lia.
  - apply Htotal. reflexivity.
Defined.

Definition nothing_to_sell : State := mkState ∅ 1 ∅ (mkMetrics 0 0 0 0).

Lemma get_products_page_shape_witness :
  (∃ st1 rows pagination,
     get_products sample_sort one_product everything
     = (st1, mkResponse 200 (Listed (Rows rows) pagination))
     ∧ (length rows ≤ 10)%nat
     ∧ pg_total pagination = Some 1%nat
     ∧ ∃ k, pg_pages pagination = Some k
            ∧ (1 ≤ k * 10)%nat ∧ (k * 10 < 1 + 10)%nat)
  ∧ ∃ st1 rows pagination,
      get_products sample_sort nothing_to_sell everything
      = (st1, mkResponse 200 (Listed (Rows rows) pagination))
      ∧ (length rows ≤ 10)%nat
      ∧ pg_total pagination = None ∧ pg_pages pagination = None.
Proof.
  split.
  - exact (get_products_page_shape sample_sort one_product everything
             eq_refl).
  - exact (get_products_page_shape sample_sort nothing_to_sell everything
             eq_refl).
Defined.

Lemma pool_never_oversells_witness :
  let c := pool_run sample_ObjectId [0; 1; 2; 2; 1; 0]%nat
             (one_product,
              [Arrived "651234567890123456789101" (Some 4);
               Arrived "651234567890123456789101" (Some 4);
               Arrived "651234567890123456789101" (Some 4)]) in
  stock_nonneg (products c.1)
  ∧ stock_at c.1 1%nat + pool_sold sample_ObjectId 1%nat c.2 = 10 + 0
  ∧ (0 = 0 → pool_sold sample_ObjectId 1%nat c.2 ≤ 10).
Proof.
  apply (pool_never_oversells sample_ObjectId [0; 1; 2; 2; 1; 0]%nat
           one_product
           [Arrived "651234567890123456789101" (Some 4);
            Arrived "651234567890123456789101" (Some 4);
            Arrived "651234567890123456789101" (Some 4)] 1%nat).
  intros i p Hp. unfold one_product in Hp; simpl in Hp.
  apply lookup_singleton_Some in Hp as [_ <-]. simpl. lia.
Defined.

(** Three requests for 4 units against a stock of 10, all reading before
    any writes: two are served, the third is turned away by the filter of
    its update, and the stock is 2. *)
Example three_purchases_two_served :
  let c := pool_run sample_ObjectId [0; 1; 2; 2; 1; 0]%nat
             (one_product,
              [Arrived "651234567890123456789101" (Some 4);
               Arrived "651234567890123456789101" (Some 4);
               Arrived "651234567890123456789101" (Some 4)]) in
  stock_at c.1 1%nat = 2
  ∧ pool_sold sample_ObjectId 1%nat c.2 = 8
  ∧ c.2 !! 0%nat
    = Some (Answered (mkResponse 400 (Error "Failed to process purchase"))).
Proof. repeat split. Qed.

End ProductService.

(** ** The order service (index.js of order-service) *)
Module OrderService.

(** *** The health probe *)

Inductive Health := healthy | unhealthy.

(** The outcome of [await db.command({ ping: 1 })]. *)
Inductive Ping := Pong | PingFailed (message : string).

Record Dependencies := mkDependencies {
  userService : Health;
  productService : Health
}.

Inductive HealthBody :=
| Up (status : Health) (service mongodb : string)
     (dependencies : Dependencies)
| Down (status : Health) (service error : string).

Record HealthResponse := mkHealthResponse {
  h_statusCode : nat;
  h_body : HealthBody
}.

(** [axios.get(url).then(() => 'healthy').catch(() => 'unhealthy')] for a
    peer that answers 2xx ([true]) or does not. *)
Definition peer_health (answers : bool) : Health :=
  if answers then healthy else unhealthy.

Definition top_status (b : HealthBody) : Health :=
  match b with
  | Up status _ _ _ => status
  | Down status _ _ => status
  end.

(** [app.get('/health', ...)] *)
Definition get_health (serviceName : string) (ping : Ping)
    (userServiceAnswers productServiceAnswers : bool) : HealthResponse :=
  match ping with
  | Pong =>
    let userServiceHealth := peer_health userServiceAnswers in
    let productServiceHealth := peer_health productServiceAnswers in
    mkHealthResponse 200
      (Up healthy serviceName "connected"
         (mkDependencies userServiceHealth productServiceHealth))
  | PingFailed message =>
    mkHealthResponse 500 (Down unhealthy serviceName message)
  end.

(** The top-level status and the status code are read off the ping alone. *)
Lemma get_health_top_status serviceName ping u p :
  top_status (h_body (get_health serviceName ping u p))
  = match ping with Pong => healthy | PingFailed _ => unhealthy end
  ∧ h_statusCode (get_health serviceName ping u p)
    = match ping with Pong => 200%nat | PingFailed _ => 500%nat end.
Proof. by destruct ping. Qed.

(** C9: when the database ping succeeds the probe answers 200 with the
    top-level status [healthy], whatever the two peers do; a peer that
    does not answer shows as [unhealthy] in its own entry of
    [dependencies] and nowhere else: two probes that differ only in what
    the peers did have the same status code and the same top-level
    status. *)
Theorem get_health_ignores_peers serviceName (ping : Ping) (u p u' p' : bool) :
  (h_statusCode (get_health serviceName Pong u p) = 200%nat
   ∧ top_status (h_body (get_health serviceName Pong u p)) = healthy
   ∧ h_body (get_health serviceName Pong u p)
     = Up healthy serviceName "connected"
         (mkDependencies (if u then healthy else unhealthy)
            (if p then healthy else unhealthy)))
  ∧ h_statusCode (get_health serviceName ping u p)
    = h_statusCode (get_health serviceName ping u' p')
  ∧ top_status (h_body (get_health serviceName ping u p))
    = top_status (h_body (get_health serviceName ping u' p')).
Proof.
  split; [by repeat split|].
  destruct (get_health_top_status serviceName ping u p) as [-> ->].
  destruct (get_health_top_status serviceName ping u' p') as [-> ->].
  done.
Qed.

(** Both peers down, the database up. *)
Example health_with_peers_down :
  get_health "order-service" Pong false false
  = mkHealthResponse 200
      (Up healthy "order-service" "connected"
         (mkDependencies unhealthy unhealthy)).
Proof. reflexivity. Qed.

(** *** Creating an order *)

(** A line of the request, and a line of the order built from it. *)
Record Item := mkItem { productId : string; quantity : Z }.

Record OrderItem := mkOrderItem {
  oi_productId : string;
  oi_name : string;
  oi_price : Z;
  oi_quantity : Z;
  oi_subtotal : Z
}.

(** A document of the [orders] collection.  [shippingAddress] is [None]
    for the empty object the handler puts in place of a missing one; the
    two dates are in milliseconds, as a [Date] holds them. *)
Record Order := mkOrder {
  _id : nat;
  userId : nat;
  items : list OrderItem;
  totalAmount : Z;
  currency : string;
  shippingAddress : option string;
  paymentMethod : string;
  status : string;
  createdAt : Z;
  updatedAt : Z
}.

Record Metrics := mkMetrics {
  ordersCreatedTotal : nat;
  ordersFailedTotal : nat;
  revenueTotal : Z
}.

(** What the handler can touch: its own collection and counters, and,
    through the HTTP calls it makes, the product service. *)
Record World := mkWorld {
  orders : list Order;
  nextId : nat;
  metrics : Metrics;
  peer : ProductService.State
}.

(** What the handler cannot decide: whether the user service answers 2xx
    for a user id; the number [Math.random()] returns inside
    [simulatePayment]; for the line at each position of the request,
    whether the stock call of the second loop reaches the product service
    and is applied there ([false] when [axios.put] rejects with nothing
    done: the service is down, the request is lost); and the values of
    the two [new Date()] of the order literal. *)
Record Env := mkEnv {
  userFound : string → bool;
  random : Q;
  stockCallApplied : nat → bool;
  createdNow : Z;
  updatedNow : Z
}.

Record OrderRequest := mkOrderRequest {
  rq_userId : option string;
  rq_items : option (list Item);
  rq_shippingAddress : option string;
  rq_paymentMethod : option string
}.

Inductive Body :=
| Error (error : string)
| InsufficientStock (error productId : string) (available requested : Z)
| Created (message : string) (orderId : nat) (order : Order).

Record Response := mkResponse { statusCode : nat; body : Body }.

(** [simulatePayment]: after a random delay, [Math.random() > 0.1]. *)
Definition simulatePayment (amount : Z) (draw : Q) : bool :=
  negb (Qle_bool draw (1 # 10)).

Definition inc_failed (m : Metrics) : Metrics :=
  mkMetrics (ordersCreatedTotal m) (S (ordersFailedTotal m)) (revenueTotal m).

Definition with_metrics (m : Metrics) (w : World) : World :=
  mkWorld (orders w) (nextId w) m (peer w).
Definition with_peer (ps : ProductService.State) (w : World) : World :=
  mkWorld (orders w) (nextId w) (metrics w) ps.

Section Handlers.
Variable ObjectId : string → option nat.

(** The first loop over [items]: fetch the product from the product
    service ([axios.get] rejects on an answer that is not 2xx), compare
    the stock with the quantity, add up.  [inl] is the 400 the loop
    returns with.  The product service is taken to answer these reads: a
    read it does not answer ends the request with the same 400 as a
    product it does not have. *)
Fixpoint validate_items (ps : ProductService.State) (its : list Item)
    (total : Z) (orderItems : list OrderItem)
  : ProductService.State * (Response + Z * list OrderItem) :=
  match its with
  | [] => (ps, inr (total, orderItems))
  | item :: rest =>
    let '(ps1, answer) :=
      ProductService.get_products_id ObjectId ps (productId item) in
    match ProductService.body answer with
    | ProductService.Found product =>
      if bool_decide (ProductService.stock product < quantity item) then
        (ps1,
         inl (mkResponse 400
                (InsufficientStock
                   ("Insufficient stock for product "
                    +:+ ProductService.name product)
                   (productId item) (ProductService.stock product)
                   (quantity item))))
      else
        let itemTotal := ProductService.price product * quantity item in
        validate_items ps1 rest (total + itemTotal)
          (orderItems
           ++ [mkOrderItem (productId item) (ProductService.name product)
                 (ProductService.price product) (quantity item) itemTotal])
    | _ =>
      (ps1,
       inl (mkResponse 400
              (Error ("Product " +:+ productId item +:+ " not found"))))
    end
  end.

(** The second loop over [items], after the order is stored: one
    [PUT /api/products/:id/stock] with [{ quantity: -item.quantity }] per
    line, [n] being the position of the first line of [its] in the
    request.  A call that is not applied leaves the product service as it
    is; whatever makes [axios.put] reject (that, or an answer that is not
    2xx) is logged in the [catch] and otherwise ignored. *)
Fixpoint decrement_stock (applied : nat → bool) (n : nat)
    (ps : ProductService.State) (its : list Item) : ProductService.State :=
  match its with
  | [] => ps
  | item :: rest =>
    decrement_stock applied (S n)
      (if applied n then
         (ProductService.put_products_stock ObjectId ps (productId item)
            (Some (- quantity item))).1
       else ps)
      rest
  end.

(** [app.post('/api/orders', ...)].  After the order is stored and the
    stock calls are made, [revenueTotal.inc({ currency }, totalAmount)]
    throws on a negative amount (a counter cannot decrease), which the
    handler's [catch] answers with a 500 and one more failed order. *)
Definition post_orders (w : World) (env : Env) (rq : OrderRequest)
  : World * Response :=
  match ProductService.truthy_string (rq_userId rq), rq_items rq with
  | Some uid, Some (item :: more) =>
    if userFound env uid then
      let '(ps1, checked) := validate_items (peer w) (item :: more) 0 [] in
      let w1 := with_peer ps1 w in
      match checked with
      | inl response => (w1, response)
      | inr (total, orderItems) =>
        if simulatePayment total (random env) then
          match ObjectId uid with
          | None =>
            (with_metrics (inc_failed (metrics w1)) w1,
             mkResponse 500 (Error BSONError_message))
          | Some user =>
            let order :=
              mkOrder (nextId w1) user orderItems total "USD"
                (ProductService.truthy_string (rq_shippingAddress rq))
                (default "credit_card"
                   (ProductService.truthy_string (rq_paymentMethod rq)))
                "pending" (createdNow env) (updatedNow env) in
            let ps2 :=
              decrement_stock (stockCallApplied env) 0 ps1 (item :: more) in
            if bool_decide (total < 0) then
              (mkWorld (orders w1 ++ [order]) (S (nextId w1))
                 (mkMetrics (S (ordersCreatedTotal (metrics w1)))
                    (S (ordersFailedTotal (metrics w1)))
                    (revenueTotal (metrics w1)))
                 ps2,
               mkResponse 500
                 (Error "It is not possible to decrease a counter"))
            else
              (mkWorld (orders w1 ++ [order]) (S (nextId w1))
                 (mkMetrics (S (ordersCreatedTotal (metrics w1)))
                    (ordersFailedTotal (metrics w1))
                    (revenueTotal (metrics w1) + total))
                 ps2,
               mkResponse 201
                 (Created "Order created successfully" (nextId w1) order))
          end
        else
          (with_metrics (inc_failed (metrics w1)) w1,
           mkResponse 400 (Error "Payment processing failed"))
      end
    else (w, mkResponse 400 (Error "User not found"))
  | _, _ => (w, mkResponse 400 (Error "Invalid order data"))
  end.

(** Reading a product changes no document of the product service. *)
Lemma get_products_id_products ps id :
  ProductService.products (ProductService.get_products_id ObjectId ps id).1
  = ProductService.products ps.
Proof.
  unfold ProductService.get_products_id.
  destruct (ObjectId id) as [oid|]; [|done].
  by destruct (ProductService.products ps !! oid).
Qed.

Lemma validate_items_products its : ∀ ps total orderItems,
  ProductService.products (validate_items ps its total orderItems).1
  = ProductService.products ps.
Proof.
  induction its as [|item rest IH]; intros ps total orderItems; [done|].
  simpl. pose proof (get_products_id_products ps (productId item)) as Hget.
  destruct (ProductService.get_products_id ObjectId ps (productId item))
    as [ps1 answer]; simpl in Hget.
  destruct (ProductService.body answer); try done.
  case_bool_decide; [done|]. by rewrite IH.
Qed.

(** C6: when the request has passed the checks before the payment (the
    payload, the user, every line's product and stock) and the payment
    step returns false, the handler answers 400 [Payment processing
    failed], increments [orders_failed_total] by one and stores no order:
    the collection is the one before, no id is used up, the other
    counters stand, and no stock of the product service has moved. *)
Theorem post_orders_payment_failed
    (w : World) (env : Env) (rq : OrderRequest) (uid : string)
    (item : Item) (more : list Item) (ps1 : ProductService.State)
    (total : Z) (orderItems : list OrderItem) :
  ProductService.truthy_string (rq_userId rq) = Some uid →
  rq_items rq = Some (item :: more) →
  userFound env uid = true →
  validate_items (peer w) (item :: more) 0 [] = (ps1, inr (total, orderItems)) →
  simulatePayment total (random env) = false →
  ∃ w',
    post_orders w env rq
    = (w', mkResponse 400 (Error "Payment processing failed"))
    ∧ orders w' = orders w
    ∧ nextId w' = nextId w
    ∧ ordersFailedTotal (metrics w') = S (ordersFailedTotal (metrics w))
    ∧ ordersCreatedTotal (metrics w') = ordersCreatedTotal (metrics w)
    ∧ revenueTotal (metrics w') = revenueTotal (metrics w)
    ∧ ProductService.products (peer w') = ProductService.products (peer w).
Proof.
  intros Huid Hitems Huser Hval Hpay. unfold post_orders.
  rewrite Huid, Hitems, Huser, Hval, Hpay.
  eexists; split; [reflexivity|]. simpl. repeat split.
  pose proof (validate_items_products (item :: more) (peer w) 0 []) as Hps.
  by rewrite Hval in Hps.
Qed.

(** Whatever the request, a payment draw of at most 0.1 leaves the
    [orders] collection as it was: the only insert of the handler is
    behind the payment. *)
Lemma post_orders_needs_payment w env rq :
  Qle_bool (random env) (1 # 10) = true →
  orders (post_orders w env rq).1 = orders w.
Proof.
  intros Hdraw. unfold post_orders.
  destruct (ProductService.truthy_string (rq_userId rq)) as [uid|]; [|done].
  destruct (rq_items rq) as [[|item more]|]; try done.
  destruct (userFound env uid); [|done].
  destruct (validate_items _ _ _ _) as [ps1 [response | [total orderItems]]];
    [done|].
  unfold simulatePayment. by rewrite Hdraw.
Qed.

End Handlers.

(** *** A concrete process *)
Definition no_orders : World :=
  mkWorld [] 1 (mkMetrics 0 0 0) ProductService.one_product.

Definition laptops (n : Z) : Item := mkItem "651234567890123456789101" n.

Definition an_order (lines : list Item) : OrderRequest :=
  mkOrderRequest (Some "651234567890123456789001") (Some lines) None None.

Definition sample_ObjectId (s : string) : option nat :=
  if bool_decide (s = "651234567890123456789001") then Some 1%nat
  else ProductService.sample_ObjectId s.

Lemma post_orders_payment_failed_witness :
  ∃ w',
    post_orders sample_ObjectId no_orders
      (mkEnv (fun _ => true) (1 # 20) (fun _ => true) 1700000000000
         1700000000000)
      (an_order [laptops 3])
    = (w', mkResponse 400 (Error "Payment processing failed"))
    ∧ orders w' = []
    ∧ nextId w' = 1%nat
    ∧ ordersFailedTotal (metrics w') = 1%nat
    ∧ ordersCreatedTotal (metrics w') = 0%nat
    ∧ revenueTotal (metrics w') = 0
    ∧ ProductService.products (peer w')
      = ProductService.products ProductService.one_product.
Proof.
  exact (post_orders_payment_failed sample_ObjectId no_orders
           (mkEnv (fun _ => true) (1 # 20) (fun _ => true) 1700000000000
              1700000000000)
           (an_order [laptops 3])
           "651234567890123456789001" (laptops 3) []
           (ProductService.with_metrics (ProductService.mkMetrics 0 1 0 0)
              ProductService.one_product)
           (99999 * 3) [mkOrderItem "651234567890123456789101" "Laptop"
                          99999 3 (99999 * 3)]
           eq_refl eq_refl eq_refl eq_refl eq_refl).
Defined.

(** An order with two lines of 6 laptops each, against a stock of 10:
    each line passes the stock check of the first loop, the payment goes
    through, and the two decrements of the second loop leave the stock at
    -2. *)
Example order_oversells :
  let w' := (post_orders sample_ObjectId no_orders
               (mkEnv (fun _ => true) (1 # 2) (fun _ => true) 1700000000000
                  1700000000000)
               (an_order [laptops 6; laptops 6])).1 in
  length (orders w') = 1%nat
  ∧ ProductService.stock <$> ProductService.products (peer w') !! 1%nat
    = Some (-2).
Proof. split; reflexivity. Qed.

(** *** Reading an order back and moving its status *)

Inductive ReadBody :=
| ReadError (error : string)
| OrderData (data : Order)
| InvalidStatus (error : string) (validStatuses : list string)
| StatusUpdated (message : string).

Record ReadResponse := mkReadResponse { r_statusCode : nat; r_body : ReadBody }.

(** [db.collection('orders').findOne({ _id })] *)
Definition findOne_id (os : list Order) (i : nat) : option Order :=
  List.find (fun o => bool_decide (_id o = i)) os.

Definition validStatuses : list string :=
  ["pending"; "processing"; "shipped"; "delivered"; "cancelled"].

(** [$set: { status, updatedAt: new Date() }], [now] being the value of
    that [new Date()]. *)
Definition set_status (s : string) (now : Z) (o : Order) : Order :=
  mkOrder (_id o) (userId o) (items o) (totalAmount o) (currency o)
    (shippingAddress o) (paymentMethod o) s (createdAt o) now.

(** [updateOne({ _id }, { $set: { status, updatedAt: new Date() } })] on
    the collection in insertion order: the first document with the [_id]
    is the one matched.  The second component is [result.modifiedCount],
    which MongoDB leaves at 0 for a matched document that the [$set]
    does not change: one that has the status already and was last
    updated in this very millisecond. *)
Fixpoint updateOne_status (i : nat) (s : string) (now : Z) (os : list Order)
  : list Order * nat :=
  match os with
  | [] => ([], 0%nat)
  | o :: rest =>
    if bool_decide (_id o = i) then
      if bool_decide (status o = s ∧ updatedAt o = now) then
        (o :: rest, 0%nat)
      else (set_status s now o :: rest, 1%nat)
    else
      let '(rest', modifiedCount) := updateOne_status i s now rest in
      (o :: rest', modifiedCount)
  end.

Definition with_orders (os : list Order) (w : World) : World :=
  mkWorld os (nextId w) (metrics w) (peer w).

(** [Σ subtotal] over the lines of an order. *)
Definition sum_subtotals (l : list OrderItem) : Z :=
  foldr (fun oi acc => oi_subtotal oi + acc) 0 l.

Section Reading.
Variable ObjectId : string → option nat.

(** [app.get('/api/orders/:id', ...)] *)
Definition get_orders_id (w : World) (id : string) : ReadResponse :=
  match ObjectId id with
  | None => mkReadResponse 500 (ReadError BSONError_message)
  | Some oid =>
    match findOne_id (orders w) oid with
    | None => mkReadResponse 404 (ReadError "Order not found")
    | Some order => mkReadResponse 200 (OrderData order)
    end
  end.

(** [app.put('/api/orders/:id/status', ...)]; the counter
    [orders_completed_total], which only this handler increments, is
    passed along beside the world, and [now] is the value of the
    handler's [new Date()]. *)
Definition put_orders_status (w : World) (ordersCompletedTotal : nat)
    (now : Z) (id : string) (status : option string)
  : World * nat * ReadResponse :=
  match status with
  | Some s =>
    if bool_decide (s ∈ validStatuses) then
      match ObjectId id with
      | None =>
        (w, ordersCompletedTotal,
         mkReadResponse 500 (ReadError BSONError_message))
      | Some oid =>
        let '(os, modifiedCount) := updateOne_status oid s now (orders w) in
        if bool_decide (modifiedCount = 0%nat) then
          (with_orders os w, ordersCompletedTotal,
           mkReadResponse 404 (ReadError "Order not found"))
        else
          (with_orders os w,
           if bool_decide (s = "delivered") then S ordersCompletedTotal
           else ordersCompletedTotal,
           mkReadResponse 200
             (StatusUpdated ("Order status updated to " +:+ s)))
      end
    else
      (w, ordersCompletedTotal,
       mkReadResponse 400 (InvalidStatus "Invalid status" validStatuses))
  | None =>
    (w, ordersCompletedTotal,
     mkReadResponse 400 (InvalidStatus "Invalid status" validStatuses))
  end.


(** **** The first loop *)

Lemma validate_items_lines its : ∀ ps total acc ps1 total' out,
  validate_items ObjectId ps its total acc = (ps1, inr (total', out)) →
  ∃ new,
    out = acc ++ new
    ∧ total' = total + sum_subtotals new
    ∧ Forall (fun oi => oi_subtotal oi = oi_price oi * oi_quantity oi) new
    ∧ oi_productId <$> new = productId <$> its
    ∧ oi_quantity <$> new = quantity <$> its.
Proof.
  induction its as [|item rest IH]; intros ps total acc ps1 total' out Hval.
  - simpl in Hval. injection Hval as _ <- <-. exists [].
    rewrite app_nil_r. simpl. repeat split; [lia | constructor].
  - simpl in Hval.
    destruct (ProductService.get_products_id ObjectId ps (productId item))
      as [ps0 answer].
    destruct (ProductService.body answer); try discriminate.
    case_bool_decide; [discriminate|].
    apply IH in Hval as (new & -> & -> & Hpriced & Hids & Hqs).
    eexists (_ :: new). rewrite <- app_assoc. simpl.
    split; [reflexivity|]. simpl. split; [lia|].
    split; [by constructor|]. split; f_equal; assumption.
Qed.

Lemma validate_items_rejects its : ∀ ps total acc ps1 response,
  validate_items ObjectId ps its total acc = (ps1, inl response) →
  statusCode response = 400%nat
  ∧ body response ≠ Error "Payment processing failed".
Proof.
  induction its as [|item rest IH]; intros ps total acc ps1 response Hval;
    simpl in Hval; [discriminate|].
  destruct (ProductService.get_products_id ObjectId ps (productId item))
    as [ps0 answer].
  destruct (ProductService.body answer);
    try (injection Hval as _ <-; simpl; split; [done | discriminate]).
  case_bool_decide; [injection Hval as _ <-; by split|].
  by apply IH in Hval.
Qed.

(** **** The second loop *)



(** **** What a 201 means *)

(** Whenever [POST /api/orders] answers 201, one order has been appended
    to the collection under the next id, with status [pending] and
    currency [USD]; it has one line per line of the request, in order and
    with the requested quantities, each subtotal is price times quantity,
    [totalAmount] is the sum of the subtotals, and [revenue_total] has
    grown by that amount and [orders_created_total] by one. *)
Theorem post_orders_created w env rq w' message orderId order :
  post_orders ObjectId w env rq
  = (w', mkResponse 201 (Created message orderId order)) →
  orders w' = orders w ++ [order]
  ∧ orderId = nextId w ∧ _id order = nextId w ∧ nextId w' = S (nextId w)
  ∧ status order = "pending" ∧ currency order = "USD"
  ∧ totalAmount order = sum_subtotals (items order)
  ∧ Forall (fun oi => oi_subtotal oi = oi_price oi * oi_quantity oi)
      (items order)
  ∧ (∃ its, rq_items rq = Some its
            ∧ oi_productId <$> items order = productId <$> its
            ∧ oi_quantity <$> items order = quantity <$> its)
  ∧ revenueTotal (metrics w') = revenueTotal (metrics w) + totalAmount order
  ∧ ordersCreatedTotal (metrics w') = S (ordersCreatedTotal (metrics w))
  ∧ ordersFailedTotal (metrics w') = ordersFailedTotal (metrics w).
Proof.
  unfold post_orders.
  destruct (ProductService.truthy_string (rq_userId rq)) as [uid|];
    [|discriminate].
  destruct (rq_items rq) as [[|item more]|]; try discriminate.
  destruct (userFound env uid); [|discriminate].
  destruct (validate_items ObjectId (peer w) (item :: more) 0 [])
    as [ps1 [response | [total orderItems]]] eqn:Hval.
  { intros [= _ ->]. by apply validate_items_rejects in Hval as [? _]. }
  destruct (simulatePayment total (random env)); [|discriminate].
  destruct (ObjectId uid) as [user|]; [|discriminate].
  case_bool_decide; [discriminate|].
  intros [= <- <- <- <-]. simpl.
  apply validate_items_lines in Hval
    as (new & Hout & Htotal & Hpriced & Hids & Hqs).
  simpl in Hout. subst orderItems.
  repeat split; try done; try lia.
  exists (item :: more). done.
Qed.


(** **** What a 400 leaves behind *)

(** A request turned away with a 400 for anything but the payment (the
    payload, the user, a product that is not found, a stock that is too
    low) leaves the orders, the ids and all three order counters as they
    were, [orders_failed_total] included, and no stock has moved. *)
Theorem post_orders_rejected_changes_nothing w env rq :
  statusCode (post_orders ObjectId w env rq).2 = 400%nat →
  body (post_orders ObjectId w env rq).2 ≠ Error "Payment processing failed" →
  orders (post_orders ObjectId w env rq).1 = orders w
  ∧ nextId (post_orders ObjectId w env rq).1 = nextId w
  ∧ metrics (post_orders ObjectId w env rq).1 = metrics w
  ∧ ProductService.products (peer (post_orders ObjectId w env rq).1)
    = ProductService.products (peer w).
Proof.
  unfold post_orders.
  destruct (ProductService.truthy_string (rq_userId rq)) as [uid|]; [|done].
  destruct (rq_items rq) as [[|item more]|]; try done.
  destruct (userFound env uid); [|done].
  pose proof (validate_items_products ObjectId (item :: more) (peer w) 0 [])
    as Hsame.
  destruct (validate_items ObjectId (peer w) (item :: more) 0 [])
    as [ps1 [response | [total orderItems]]]; simpl in Hsame; [done|].
  destruct (simulatePayment total (random env)); [|done].
  destruct (ObjectId uid) as [user|]; [|discriminate].
  case_bool_decide; discriminate.
Qed.

(** **** Reading back *)

(** Every stored order has an id below the next one to be handed out. *)
Definition ids_below (w : World) : Prop :=
  ∀ o, o ∈ orders w → (_id o < nextId w)%nat.

Lemma findOne_id_app_fresh os o i :
  (∀ o', o' ∈ os → _id o' ≠ i) →
  findOne_id (os ++ [o]) i = findOne_id [o] i.
Proof.
  induction os as [|o0 os IH]; intros Hfresh; [done|].
  unfold findOne_id in *; simpl.
  rewrite bool_decide_eq_false_2 by (apply Hfresh; left).
  apply IH. intros o' Ho'. apply Hfresh. by right.
Qed.

(** The order a 201 reports can be read back under the id the answer
    gives: [GET /api/orders/:id] returns that very document. *)
Theorem order_read_back w env rq w' message orderId order id :
  ids_below w →
  post_orders ObjectId w env rq
  = (w', mkResponse 201 (Created message orderId order)) →
  ObjectId id = Some orderId →
  get_orders_id w' id = mkReadResponse 200 (OrderData order)
  ∧ ids_below w'.
Proof.
  intros Hbelow Hpost Hid.
  apply post_orders_created in Hpost
    as (Horders & -> & Horder & Hnext & _).
  split.
  - unfold get_orders_id. rewrite Hid, Horders.
    rewrite findOne_id_app_fresh.
    + unfold findOne_id; simpl. by rewrite bool_decide_eq_true_2.
    + intros o' Ho'. apply Hbelow in Ho'. lia.
  - intros o Ho. rewrite Horders in Ho. rewrite Hnext.
    apply elem_of_app in Ho as [Ho | Ho].
    + apply Hbelow in Ho. lia.
    + apply list_elem_of_singleton in Ho as ->. lia.
Qed.

(** **** Moving the status *)

Lemma updateOne_status_found os : ∀ i s now o,
  findOne_id os i = Some o →
  status o ≠ s ∨ updatedAt o ≠ now →
  ∃ os',
    updateOne_status i s now os = (os', 1%nat)
    ∧ findOne_id os' i = Some (set_status s now o)
    ∧ (∀ j, j ≠ i → findOne_id os' j = findOne_id os j)
    ∧ length os' = length os.
Proof.
  induction os as [|o0 os IH]; intros i s now o Hfind Hnew; [discriminate|].
  unfold findOne_id in Hfind; simpl in Hfind. simpl.
  case_bool_decide as Hhead.
  - injection Hfind as <-.
    rewrite bool_decide_eq_false_2 by (intros [? ?]; by destruct Hnew).
    eexists; split; [reflexivity|].
    unfold findOne_id; simpl. rewrite bool_decide_eq_true_2 by done.
    split; [done|]. split; [|done].
    intros j Hj. by rewrite !bool_decide_eq_false_2 by congruence.
  - destruct (IH i s now o Hfind Hnew) as (os' & Hupd & Hfound & Hother & Hlen).
    rewrite Hupd. eexists; split; [reflexivity|].
    unfold findOne_id in *; simpl.
    rewrite bool_decide_eq_false_2 by done.
    split; [done|]. split; [|by rewrite Hlen].
    intros j Hj. case_bool_decide; [done|]. by apply Hother.
Qed.

Lemma updateOne_status_same os : ∀ i s now o,
  findOne_id os i = Some o →
  status o = s ∧ updatedAt o = now →
  updateOne_status i s now os = (os, 0%nat).
Proof.
  induction os as [|o0 os IH]; intros i s now o Hfind Hsame; [discriminate|].
  unfold findOne_id in Hfind; simpl in Hfind. simpl.
  case_bool_decide as Hhead.
  - injection Hfind as <-. by rewrite bool_decide_eq_true_2.
  - by rewrite (IH i s now o Hfind Hsame).
Qed.

Lemma updateOne_status_missing os : ∀ i s now,
  findOne_id os i = None → updateOne_status i s now os = (os, 0%nat).
Proof.
  induction os as [|o0 os IH]; intros i s now Hfind; [done|].
  unfold findOne_id in Hfind; simpl in Hfind. simpl.
  case_bool_decide; [discriminate|]. by rewrite (IH i s now Hfind).
Qed.

(** The status handler moves an order to any of the five statuses from
    whatever status it has: it asks nothing of the current one.  When
    the update changes the document (the status is another one, or the
    order was last updated at another millisecond), the answer is 200,
    the order read back is the one before with the new status and the
    new [updatedAt] and every other field as it was, the other orders
    are as they were, and [orders_completed_total] goes up exactly when
    the new status is [delivered], also for an order that was delivered
    already.  When the update changes nothing (same status, same
    millisecond), [modifiedCount] is 0 and the answer is the 404 of an
    order that does not exist, with nothing changed or counted. *)
Theorem put_orders_status_moves w completed now id oid o s :
  s ∈ validStatuses →
  ObjectId id = Some oid →
  findOne_id (orders w) oid = Some o →
  (status o ≠ s ∨ updatedAt o ≠ now →
   ∃ w',
     put_orders_status w completed now id (Some s)
     = (w',
        if bool_decide (s = "delivered") then S completed else completed,
        mkReadResponse 200 (StatusUpdated ("Order status updated to " +:+ s)))
     ∧ get_orders_id w' id
       = mkReadResponse 200
           (OrderData
              (mkOrder (_id o) (userId o) (items o) (totalAmount o)
                 (currency o) (shippingAddress o) (paymentMethod o) s
                 (createdAt o) now))
     ∧ (∀ j, j ≠ oid → findOne_id (orders w') j = findOne_id (orders w) j)
     ∧ length (orders w') = length (orders w)
     ∧ nextId w' = nextId w ∧ metrics w' = metrics w)
  ∧ (status o = s ∧ updatedAt o = now →
     put_orders_status w completed now id (Some s)
     = (w, completed, mkReadResponse 404 (ReadError "Order not found"))).
Proof.
  intros Hvalid Hid Hfind. unfold put_orders_status.
  rewrite bool_decide_eq_true_2 by done. rewrite Hid. split.
  - intros Hnew.
    destruct (updateOne_status_found (orders w) oid s now o Hfind Hnew)
      as (os' & Hupd & Hfound & Hother & Hlen).
    rewrite Hupd. simpl. eexists; split; [reflexivity|].
    unfold get_orders_id. rewrite Hid. simpl. by rewrite Hfound.
  - intros Hsame.
    rewrite (updateOne_status_same _ _ _ _ _ Hfind Hsame). simpl.
    by destruct w.
Qed.

(** The status handler refuses a status outside the five (or none at
    all) with a 400 that lists them, and an order id that no order has
    with a 404; either way nothing is changed and nothing is counted,
    [delivered] included. *)
Theorem put_orders_status_refused w completed now id :
  (∀ status,
     (∀ s, status = Some s → s ∉ validStatuses) →
     put_orders_status w completed now id status
     = (w, completed,
        mkReadResponse 400 (InvalidStatus "Invalid status" validStatuses)))
  ∧ (∀ s oid,
       s ∈ validStatuses → ObjectId id = Some oid →
       findOne_id (orders w) oid = None →
       put_orders_status w completed now id (Some s)
       = (w, completed, mkReadResponse 404 (ReadError "Order not found"))).
Proof.
  split.
  - intros [s|] Hinvalid; unfold put_orders_status; [|done].
    by rewrite bool_decide_eq_false_2 by (by apply Hinvalid).
  - intros s oid Hvalid Hid Hfind. unfold put_orders_status.
    rewrite bool_decide_eq_true_2 by done. rewrite Hid.
    rewrite (updateOne_status_missing _ _ _ _ Hfind). simpl. by destruct w.
Qed.

End Reading.

(** *** A concrete order *)
Definition order_ObjectId (s : string) : option nat :=
  if bool_decide (s = "651234567890123456789201") then Some 1%nat
  else if bool_decide (s = "651234567890123456789202") then Some 2%nat
  else sample_ObjectId s.

(** The payment goes through and every stock call is applied; the two
    dates of the order are the same millisecond. *)
Definition paid : Env :=
  mkEnv (fun _ => true) (1 # 2) (fun _ => true) 1700000000000 1700000000000.

(** The same, with the product service down during the second loop. *)
Definition paid_peer_down : Env :=
  mkEnv (fun _ => true) (1 # 2) (fun _ => false) 1700000000000 1700000000000.

Definition three_laptops : Order :=
  mkOrder 1 1 [mkOrderItem "651234567890123456789101" "Laptop" 99999 3 299997]
    299997 "USD" None "credit_card" "pending" 1700000000000 1700000000000.

(** The world after the order for three laptops went through. *)
Definition one_order : World :=
  (post_orders order_ObjectId no_orders paid (an_order [laptops 3])).1.

Example one_order_answer :
  post_orders order_ObjectId no_orders paid (an_order [laptops 3])
  = (one_order,
     mkResponse 201 (Created "Order created successfully" 1 three_laptops)).
Proof. reflexivity. Qed.

Lemma post_orders_created_witness :
  orders one_order = [] ++ [three_laptops]
  ∧ 1%nat = nextId no_orders ∧ _id three_laptops = nextId no_orders
  ∧ nextId one_order = S (nextId no_orders)
  ∧ status three_laptops = "pending" ∧ currency three_laptops = "USD"
  ∧ totalAmount three_laptops = sum_subtotals (items three_laptops)
  ∧ Forall (fun oi => oi_subtotal oi = oi_price oi * oi_quantity oi)
      (items three_laptops)
  ∧ (∃ its, rq_items (an_order [laptops 3]) = Some its
            ∧ oi_productId <$> items three_laptops = productId <$> its
            ∧ oi_quantity <$> items three_laptops = quantity <$> its)
  ∧ revenueTotal (metrics one_order) = 0 + totalAmount three_laptops
  ∧ ordersCreatedTotal (metrics one_order) = 1%nat
  ∧ ordersFailedTotal (metrics one_order) = 0%nat.
Proof.
  exact (post_orders_created order_ObjectId no_orders paid
           (an_order [laptops 3]) one_order "Order created successfully"
           1%nat three_laptops eq_refl).
Defined.


(** With the product service down during the second loop the order for
    three laptops is answered 201 and stored, and the stock is still
    10; with it up, the stock is 7. *)
Example order_stands_with_peer_down :
  (post_orders order_ObjectId no_orders paid_peer_down
     (an_order [laptops 3])).2
  = mkResponse 201 (Created "Order created successfully" 1 three_laptops)
  ∧ ProductService.stock
      <$> ProductService.products
            (peer (post_orders order_ObjectId no_orders paid_peer_down
                     (an_order [laptops 3])).1) !! 1%nat
    = Some 10
  ∧ ProductService.stock
      <$> ProductService.products (peer one_order) !! 1%nat
    = Some 7.
Proof. repeat split. Qed.

Lemma post_orders_rejected_changes_nothing_witness :
  orders (post_orders order_ObjectId no_orders paid
            (an_order [laptops 11])).1 = []
  ∧ nextId (post_orders order_ObjectId no_orders paid
              (an_order [laptops 11])).1 = 1%nat
  ∧ metrics (post_orders order_ObjectId no_orders paid
               (an_order [laptops 11])).1 = mkMetrics 0 0 0
  ∧ ProductService.products
      (peer (post_orders order_ObjectId no_orders paid
               (an_order [laptops 11])).1)
    = ProductService.products ProductService.one_product.
Proof.
  apply (post_orders_rejected_changes_nothing order_ObjectId no_orders paid
           (an_order [laptops 11])).
  - reflexivity.
  - simpl. discriminate.
Defined.

Lemma order_read_back_witness :
  get_orders_id order_ObjectId one_order "651234567890123456789201"
  = mkReadResponse 200 (OrderData three_laptops)
  ∧ ids_below one_order.
Proof.
  apply (order_read_back order_ObjectId no_orders paid
           (an_order [laptops 3]) one_order "Order created successfully"
           1%nat three_laptops "651234567890123456789201").
  - intros o Ho. simpl in Ho. by apply elem_of_nil in Ho.
  - reflexivity.
  - reflexivity.
Defined.

Lemma put_orders_status_moves_witness :
  (∃ w',
     put_orders_status order_ObjectId one_order 0 1700000060000
       "651234567890123456789201" (Some "delivered")
     = (w', 1%nat,
        mkReadResponse 200
          (StatusUpdated "Order status updated to delivered"))
     ∧ get_orders_id order_ObjectId w' "651234567890123456789201"
       = mkReadResponse 200
           (OrderData
              (mkOrder 1 1
                 [mkOrderItem "651234567890123456789101" "Laptop" 99999 3
                    299997]
                 299997 "USD" None "credit_card" "delivered" 1700000000000
                 1700000060000))
     ∧ (∀ j, j ≠ 1%nat →
          findOne_id (orders w') j = findOne_id (orders one_order) j)
     ∧ length (orders w') = length (orders one_order)
     ∧ nextId w' = nextId one_order ∧ metrics w' = metrics one_order)
  ∧ put_orders_status order_ObjectId one_order 0 1700000000000
      "651234567890123456789201" (Some "pending")
    = (one_order, 0%nat, mkReadResponse 404 (ReadError "Order not found")).
Proof.
  split.
  - apply (proj1 (put_orders_status_moves order_ObjectId one_order 0%nat
                    1700000060000 "651234567890123456789201" 1%nat
                    three_laptops "delivered"
                    ltac:(unfold validStatuses; repeat constructor)
                    eq_refl eq_refl)).
    left. simpl. discriminate.
  - apply (proj2 (put_orders_status_moves order_ObjectId one_order 0%nat
                    1700000000000 "651234567890123456789201" 1%nat
                    three_laptops "pending"
                    ltac:(unfold validStatuses; repeat constructor)
                    eq_refl eq_refl)).
    split; reflexivity.
Defined.

Lemma put_orders_status_refused_witness :
  put_orders_status order_ObjectId one_order 0 1700000060000
    "651234567890123456789201" (Some "returned")
  = (one_order, 0%nat,
     mkReadResponse 400 (InvalidStatus "Invalid status" validStatuses))
  ∧ put_orders_status order_ObjectId one_order 0 1700000060000
      "651234567890123456789202" (Some "delivered")
    = (one_order, 0%nat, mkReadResponse 404 (ReadError "Order not found")).
Proof.
  split.
  - apply (proj1 (put_orders_status_refused order_ObjectId one_order 0%nat
                    1700000060000 "651234567890123456789201")).
    intros s [= <-] Hin. unfold validStatuses in Hin.
    repeat (apply elem_of_cons in Hin as [Hin | Hin]; [discriminate|]).
    by apply elem_of_nil in Hin.
  - apply (proj2 (put_orders_status_refused order_ObjectId one_order 0%nat
                    1700000060000 "651234567890123456789202")
             "delivered" 2%nat).
    + unfold validStatuses. repeat constructor.
    + reflexivity.
    + reflexivity.
Defined.

(** An order delivered at two different moments is counted twice, and a
    delivered order can be moved back to [pending]; delivered again in
    the millisecond of the last update, it is answered 404 and not
    counted. *)
Example delivered_twice :
  let '(w1, c1, _) := put_orders_status order_ObjectId one_order 0
                        1700000060000
                        "651234567890123456789201" (Some "delivered") in
  let '(w2, c2, r2) := put_orders_status order_ObjectId w1 c1 1700000060000
                         "651234567890123456789201" (Some "delivered") in
  let '(w3, c3, r3) := put_orders_status order_ObjectId w2 c2 1700000120000
                         "651234567890123456789201" (Some "delivered") in
  let '(w4, c4, r4) := put_orders_status order_ObjectId w3 c3 1700000180000
                         "651234567890123456789201" (Some "pending") in
  c1 = 1%nat
  ∧ r2 = mkReadResponse 404 (ReadError "Order not found") ∧ c2 = 1%nat
  ∧ r3 = mkReadResponse 200 (StatusUpdated "Order status updated to delivered")
  ∧ c3 = 2%nat
  ∧ r4 = mkReadResponse 200 (StatusUpdated "Order status updated to pending")
  ∧ c4 = 2%nat
  ∧ status <$> orders w4 = ["pending"].
Proof. repeat split. Qed.

End OrderService.

(** ** Required fields across the services *)

(** C8 as stated fails.  A registration without [name] is answered 201 and
    stored, with no name.  A product creation without [name] and one
    without [category] are both turned away with the same body, the fixed
    message [Missing required fields], in which neither field name
    occurs. *)
Lemma create_with_missing_fields :
  (∃ st',
     UserService.post_users_register UserService.sample_hash
       UserService.fresh_process
       (UserService.mkCredentials None (Some "bob@example.com") (Some "pw"))
     = (st', UserService.mkResponse 201
               (UserService.Registered "User registered successfully" 2))
     ∧ UserService.users st'
       = [UserService.alice;
          UserService.mkUser 2 None (Some "bob@example.com")
            (Some "$2b$10$pw") (Some "active")])
  ∧ ProductService.post_products ProductService.one_product
      (ProductService.mkNewProduct None (Some 1999) (Some "electronics")
         (Some 5) None)
    = (ProductService.one_product,
       ProductService.mkResponse 400
         (ProductService.Error "Missing required fields"))
  ∧ ProductService.post_products ProductService.one_product
      (ProductService.mkNewProduct (Some "Mouse") (Some 1999) None
         (Some 5) None)
    = (ProductService.one_product,
       ProductService.mkResponse 400
         (ProductService.Error "Missing required fields"))
  ∧ String.index 0 "name" "Missing required fields" = None
  ∧ String.index 0 "category" "Missing required fields" = None.
Proof.
  split; [eexists; split; reflexivity|]. repeat split.
Qed.
